(** * Speedo's report printer (speedo/printer.h)

    A shallow embedding of the class [Printer] of speedo/printer.h and the
    proofs of what its report looks like.

    The printer writes to [std::cerr] through the stream manipulators of
    <iomanip>.  The embedding keeps the part of the stream state that the
    code touches (the text written so far, the fill character, the pending
    field width and the adjustment flag) and threads it through every
    insertion, exactly in the order of the [<<] chains of the source.
    Functions of the C++ library that can throw ([std::string::substr],
    [std::string::at]) return [option], and so does everything that calls
    them; machine integers are values of [Z] with their conversions written
    out. *)

From Stdlib Require Import ZArith List Ascii String Bool Lia.
From Stdlib Require Import DecimalString DecimalFacts DecimalPos DecimalZ.
Import ListNotations.

Local Open Scope Z_scope.

(** ** Machine integers *)

Module Machine.

(** [std::size_t] is taken to be 64 bits wide and [int] 32 bits wide. *)
Definition size_t_modulus : Z := 2 ^ 64.
Definition INT_MAX : Z := 2 ^ 31 - 1.
Definition LONG_MIN : Z := - 2 ^ 63.
Definition LONG_MAX : Z := 2 ^ 63 - 1.

(** Conversion to [std::size_t]: reduction modulo 2^64. *)
Definition to_size_t (z : Z) : Z := z mod size_t_modulus.

(** Conversion to [int]: two's complement reduction to 32 bits.  The loop
    counters of the printer are incremented through it; an overflow, which
    C++ leaves undefined, would wrap around, and does not occur below
    [INT_MAX] iterations. *)
Definition to_int (z : Z) : Z := (z + 2 ^ 31) mod 2 ^ 32 - 2 ^ 31.

(** The values of type [long int]. *)
Definition is_long (z : Z) : Prop := LONG_MIN <= z <= LONG_MAX.

End Machine.
Import Machine.

(** ** The error monad of throwing code *)

Definition bind {A B : Type} (x : option A) (k : A -> option B) : option B :=
  match x with
  | Some a => k a
  | None => None
  end.

Notation "x <- e ;; k" := (bind e (fun x => k))
  (at level 61, e at next level, right associativity).

(** ** std::string *)

Definition str : Type := list ascii.

(** A string literal of the source. *)
Definition lit (s : string) : str := list_ascii_of_string s.

Module StdString.

(** [s.length()], a [std::size_t]. *)
Definition size (s : str) : Z := Z.of_nat (List.length s).

(** [std::string::npos], that is [size_t(-1)]. *)
Definition npos : Z := to_size_t (-1).

(** [s.at(pos)]: throws [std::out_of_range] unless [pos < s.size()]. *)
Definition at_ (s : str) (pos : Z) : option ascii :=
  if pos <? size s then nth_error s (Z.to_nat pos) else None.

(** [s.substr(pos)]: the text from [pos] to the end; throws
    [std::out_of_range] when [pos > s.size()]. *)
Definition substr (s : str) (pos : Z) : option str :=
  if pos <=? size s then Some (skipn (Z.to_nat pos) s) else None.

(** [c] is one of the characters of [chars]. *)
Definition is_one_of (chars : str) (c : ascii) : bool :=
  existsb (Ascii.eqb c) chars.

(** The backward scan of [find_last_of]: [back] holds the characters at the
    positions [i], [i-1], ..., [0], in that order. *)
Fixpoint scan_back (chars back : str) (i : Z) : Z :=
  match back with
  | [] => npos
  | c :: before => if is_one_of chars c then i else scan_back chars before (i - 1)
  end.

(** [s.find_last_of(chars)]: the position of the last character of [s] that
    is one of [chars], [npos] when there is none. *)
Definition find_last_of (s chars : str) : Z :=
  scan_back chars (rev s) (size s - 1).

(** [a == b] on strings. *)
Definition eqb (a b : str) : bool :=
  if list_eq_dec ascii_dec a b then true else false.

End StdString.

(** ** Output streams *)

Module Stream.

(** The adjustment field of [std::ios_base]; no bit is set in a fresh
    stream. *)
Inductive adjustfield : Type :=
  | adjust_unset
  | adjust_left
  | adjust_right
  | adjust_internal.

(** What the printer reads and writes of a [std::ostream]. *)
Record ostream : Type := mk_ostream {
  text : str;              (* the characters written so far *)
  fill : ascii;            (* std::ios::fill() *)
  width : Z;               (* std::ios_base::width() *)
  adjust : adjustfield     (* std::ios_base::adjustfield *)
}.

(** A default-constructed [std::stringstream]. *)
Definition fresh : ostream :=
  {| text := []; fill := " "%char; width := 0; adjust := adjust_unset |}.

(** [os << manipulator], written as in the source. *)
Notation "os << f" := (f os) (at level 50, left associativity, only parsing).

Definition setfill (c : ascii) (os : ostream) : ostream :=
  {| text := text os; fill := c; width := width os; adjust := adjust os |}.

Definition setw (n : Z) (os : ostream) : ostream :=
  {| text := text os; fill := fill os; width := n; adjust := adjust os |}.

Definition left (os : ostream) : ostream :=
  {| text := text os; fill := fill os; width := width os; adjust := adjust_left |}.

Definition right (os : ostream) : ostream :=
  {| text := text os; fill := fill os; width := width os; adjust := adjust_right |}.

(** The fill characters a field of [len] characters needs to reach the
    pending width; none when the field is already that wide. *)
Definition padding (os : ostream) (len : nat) : str :=
  repeat (fill os) (Z.to_nat (width os - Z.of_nat len)).

(** Formatted insertion of characters ([char], [const char*] and
    [std::string] alike): the field is padded to the pending width, after
    the text when the stream is left-adjusted and before it otherwise,
    never truncated, and the width is reset to 0. *)
Definition put (t : str) (os : ostream) : ostream :=
  let field :=
    match adjust os with
    | adjust_left => t ++ padding os (List.length t)
    | _ => padding os (List.length t) ++ t
    end in
  {| text := text os ++ field; fill := fill os; width := 0; adjust := adjust os |}.

Definition put_char (c : ascii) : ostream -> ostream := put [c].

(** The text of an integer as [operator<<] prints it in the default
    formatting (classic locale, base 10, no [showpos]): an optional minus
    sign and the decimal digits of the magnitude. *)
Definition sign_and_digits (n : Z) : str * str :=
  match Z.to_int n with
  | Decimal.Pos d => ([], list_ascii_of_string (NilZero.string_of_uint d))
  | Decimal.Neg d => (["-"%char], list_ascii_of_string (NilZero.string_of_uint d))
  end.

Definition dec (n : Z) : str :=
  fst (sign_and_digits n) ++ snd (sign_and_digits n).

(** Formatted insertion of an integer: padded like text, except that an
    internally adjusted stream pads between the sign and the digits. *)
Definition put_int (n : Z) (os : ostream) : ostream :=
  let sign := fst (sign_and_digits n) in
  let ds := snd (sign_and_digits n) in
  let pad := padding os (List.length (sign ++ ds)) in
  let field :=
    match adjust os with
    | adjust_left => sign ++ ds ++ pad
    | adjust_internal => sign ++ pad ++ ds
    | _ => pad ++ sign ++ ds
    end in
  {| text := text os ++ field; fill := fill os; width := 0; adjust := adjust os |}.

(** The line feed. *)
Definition nl : ascii := "010"%char.

(** [std::endl]: an unformatted [put] of the line feed (no padding, the
    width is left alone) and a flush. *)
Definition endl (os : ostream) : ostream :=
  {| text := text os ++ [nl]; fill := fill os; width := width os; adjust := adjust os |}.

(** [stream.str()] and [stream.str(s)] of a [std::stringstream]. *)
Definition get_str (os : ostream) : str := text os.

Definition set_str (s : str) (os : ostream) : ostream :=
  {| text := s; fill := fill os; width := width os; adjust := adjust os |}.

End Stream.
Import Stream.

(** ** The measurements *)

(** Modelled from the spec: speedo/multi_measurement.h (and the checkpoint
    class it uses) is not among the sources.  The printer only reads a
    measurement through the getters below: a start and an end checkpoint,
    each a file name and a line number, the number of samples, and the
    average and overall durations, whose [count()] in microseconds is what
    [insert_separators] receives as a [long int]. *)
Record Checkpoint : Type := mk_checkpoint {
  get_file : str;
  get_line : Z
}.

Record MultiMeasurement : Type := mk_measurement {
  get_start : Checkpoint;
  get_end : Checkpoint;
  count : Z;
  get_average_duration : Z;
  get_overall_duration : Z
}.

(** ** class Printer *)

Module Printer.

(** The only data member: [std::vector<MultiMeasurement> measurements_]. *)
Record Printer : Type := mk_printer {
  measurements_ : list MultiMeasurement
}.

Definition line_width : Z := 80.
Definition file_col_width : Z := 30.
Definition line_col_width : Z := 6.
Definition count_col_width : Z := 10.
Definition avg_duration_col_width : Z := 15.
Definition ovr_duration_col_width : Z := 15.

(** [void add(const MultiMeasurement&)]: [push_back]. *)
Definition add (measurement : MultiMeasurement) (p : Printer) : Printer :=
  {| measurements_ := measurements_ p ++ [measurement] |}.

(** [static void print_hline(char fill = '#')]. *)
Definition print_hline (c : ascii) (cerr : ostream) : ostream :=
  cerr << setfill c << setw line_width << put_char c << endl.

(** [static void print_title()].  The two pad widths are computed in
    [std::size_t], because [title.length()] is one, and converted to the
    [int] that [std::setw] takes. *)
Definition print_title (cerr : ostream) : ostream :=
  let title := lit " PROFILING WITH SPEEDO " in
  let c := "#"%char in
  cerr << setfill c
       << setw line_width << put_char c << endl
       << setw (to_int (to_size_t (line_width - StdString.size title) / 2))
       << put_char c << put title
       << put (if 0 <? StdString.size title mod 2 then [c] else [])
       << setw (to_int (to_size_t (line_width - StdString.size title) / 2))
       << put_char c << endl
       << setw line_width << put_char c << endl.

(** [static void print_header()]. *)
Definition print_header (cerr : ostream) : ostream :=
  let cerr :=
    cerr << setfill " "%char
         << setw file_col_width << left
         << put (lit "File") << put (lit "|")
         << setw line_col_width << right
         << put (lit "Line ") << put (lit "|")
         << setw count_col_width << right
         << put (lit "Count ") << put (lit "|")
         << setw avg_duration_col_width << right
         << put (lit "Average [us] ") << put (lit "|")
         << setw ovr_duration_col_width << right
         << put (lit "Overall [us]")
         << endl in
  print_hline "="%char cerr.

(** [static std::string crop_path(const std::string&)].
    [slash_position + 1] is computed in [std::size_t], so that [npos + 1]
    is 0. *)
Definition crop_path (file_name : str) : option str :=
  let slash_position := StdString.find_last_of file_name (lit "/\") in
  StdString.substr file_name (to_size_t (slash_position + 1)).

(** The loop of [insert_separators]:
    [for (int pos = 0; pos < n_str.length(); pos++)].  [fuel] bounds the
    number of iterations; the loop yields [None] when it is used up while
    the guard still holds, and when [at] throws. *)
Fixpoint separators_loop (fuel : nat) (n_str : str) (pos : Z) (stream : ostream)
  : option ostream :=
  if to_size_t pos <? StdString.size n_str then
    match fuel with
    | O => None
    | S fuel' =>
        c <- StdString.at_ n_str (to_size_t pos) ;;
        let stream := stream << put_char c in
        let rest :=
          to_size_t (to_size_t (StdString.size n_str - 1) - to_size_t pos) in
        let stream :=
          if (3 <=? rest) && (rest mod 3 =? 0)
          then stream << put (lit ",")
          else stream in
        separators_loop fuel' n_str (to_int (pos + 1)) stream
    end
  else Some stream.

(** [static std::string insert_separators(long int n)]. *)
Definition insert_separators (n : Z) : option str :=
  let stream := fresh << put_int n in
  let n_str := get_str stream in
  let stream := stream << set_str [] in
  stream <- separators_loop (List.length n_str) n_str 0 stream ;;
  Some (get_str stream).

(** [static void print(const MultiMeasurement&)]. *)
Definition print_measurement (measurement : MultiMeasurement) (cerr : ostream)
  : option ostream :=
  file_start <- crop_path (get_file (get_start measurement)) ;;
  let cerr :=
    cerr << setfill " "%char
         << setw file_col_width << left
         << put file_start << put (lit "|")
         << setw line_col_width << right
         << put_int (get_line (get_start measurement)) << put (lit "|")
         << setw count_col_width << right
         << put (lit " ") << put (lit "|")
         << setw avg_duration_col_width << right
         << put (lit " ") << put (lit "|")
         << endl in
  file_end <- crop_path (get_file (get_end measurement)) ;;
  let file_end := if StdString.eqb file_start file_end then [] else file_end in
  average <- insert_separators (get_average_duration measurement) ;;
  overall <- insert_separators (get_overall_duration measurement) ;;
  Some (cerr << setfill " "%char
             << setw file_col_width << left
             << put file_end << put (lit "|")
             << setw line_col_width << right
             << put_int (get_line (get_end measurement)) << put (lit "|")
             << setw count_col_width << right
             << put_int (count measurement) << put (lit "|")
             << setw avg_duration_col_width << right
             << put average << put (lit "|")
             << setw ovr_duration_col_width << right
             << put overall
             << endl).

(** The loop of [print()]:
    [for (int i = 0; i < measurements_.size(); i++)], with [fuel] as in
    [separators_loop].  [measurements_[i]] is unchecked in C++; an index
    out of range yields [None] here. *)
Fixpoint print_loop (fuel : nat) (ms : list MultiMeasurement) (i : Z) (cerr : ostream)
  : option ostream :=
  if to_size_t i <? Z.of_nat (List.length ms) then
    match fuel with
    | O => None
    | S fuel' =>
        m <- nth_error ms (Z.to_nat (to_size_t i)) ;;
        cerr <- print_measurement m cerr ;;
        let cerr :=
          print_hline
            (if to_size_t i <? to_size_t (Z.of_nat (List.length ms) - 1)
             then "-"%char else "#"%char) cerr in
        print_loop fuel' ms (to_int (i + 1)) cerr
    end
  else Some cerr.

(** [void print() const]. *)
Definition print (p : Printer) (cerr : ostream) : option ostream :=
  let cerr := print_title cerr in
  let cerr := print_header cerr in
  print_loop (List.length (measurements_ p)) (measurements_ p) 0 cerr.

End Printer.
Import Printer.

(** ** Well-typed inputs

    The values of the embedding range over [Z] and over lists of any
    length; the C++ values are the ones below. *)

(** A [std::string]: its length is a [std::size_t]. *)
Definition is_string (s : str) : Prop := StdString.size s < size_t_modulus.

(** A measurement whose file names are strings and whose durations are
    [long int]s. *)
Definition is_measurement (m : MultiMeasurement) : Prop :=
  is_string (get_file (get_start m)) /\
  is_string (get_file (get_end m)) /\
  is_long (get_average_duration m) /\
  is_long (get_overall_duration m).

(** A printer whose loop counter, an [int], can count its measurements. *)
Definition is_printer (p : Printer) : Prop :=
  Z.of_nat (List.length (measurements_ p)) <= INT_MAX /\
  Forall is_measurement (measurements_ p).

(** ** The report as the specification describes it

    The definitions of this module follow the words of the specification;
    the theorems below compare them with the code. *)

Module Spec.

Definition is_separator (c : ascii) : bool :=
  Ascii.eqb c "/"%char || Ascii.eqb c "\"%char.

(** The base name: what follows the last path separator, the whole text
    when there is none. *)
Fixpoint basename (s : str) : str :=
  match s with
  | [] => []
  | c :: rest =>
      if existsb is_separator rest then basename rest
      else if is_separator c then rest else s
  end.

(** The decimal digits, by their character codes. *)
Definition is_digit (c : ascii) : bool :=
  (48 <=? nat_of_ascii c)%nat && (nat_of_ascii c <=? 57)%nat.

(** Scanning left to right, a comma after a character whenever the number
    of characters that remain after it is a positive multiple of 3. *)
Fixpoint scan_commas (t : str) : str :=
  match t with
  | [] => []
  | c :: rest =>
      if (3 <=? List.length rest)%nat && (List.length rest mod 3 =? 0)%nat
      then c :: ","%char :: scan_commas rest
      else c :: scan_commas rest
  end.

(** Groups of three counted from the least significant digit: [r] holds
    the characters from the last to the first, and a comma closes every
    full group that is followed by more characters. *)
Fixpoint group_from_lsd (r : str) : str :=
  match r with
  | a :: b :: c :: ((_ :: _) as more) =>
      a :: b :: c :: ","%char :: group_from_lsd more
  | _ => r
  end.

Definition thousands (t : str) : str := rev (group_from_lsd (rev t)).

(** A field of minimum width [w], left- and right-aligned, padded with
    spaces. *)
Definition ljust (w : nat) (t : str) : str := t ++ repeat " "%char (w - List.length t).
Definition rjust (w : nat) (t : str) : str := repeat " "%char (w - List.length t) ++ t.

(** A full-width line of one character. *)
Definition hline (c : ascii) : str := repeat c 80.

Definition title_line : str :=
  repeat "#"%char 28 ++ lit " PROFILING WITH SPEEDO " ++ ["#"%char] ++ repeat "#"%char 28.

Definition banner : list str := [hline "#"%char; title_line; hline "#"%char].

Definition header_row : str :=
  ljust 30 (lit "File") ++ lit "|" ++
  rjust 6 (lit "Line ") ++ lit "|" ++
  rjust 10 (lit "Count ") ++ lit "|" ++
  rjust 15 (lit "Average [us] ") ++ lit "|" ++
  rjust 15 (lit "Overall [us]").

Definition header : list str := [header_row; hline "="%char].

(** Row A, the start row: file, line, a blank Count and a blank Average
    field, each closed by a bar; no Overall field. *)
Definition row_A (m : MultiMeasurement) : str :=
  ljust 30 (basename (get_file (get_start m))) ++ lit "|" ++
  rjust 6 (dec (get_line (get_start m))) ++ lit "|" ++
  repeat " "%char 10 ++ lit "|" ++
  repeat " "%char 15 ++ lit "|".

(** The file field of row B: empty when the two base names are equal. *)
Definition file_B (m : MultiMeasurement) : str :=
  if StdString.eqb (basename (get_file (get_start m))) (basename (get_file (get_end m)))
  then []
  else basename (get_file (get_end m)).

(** Row B, the end row. *)
Definition row_B (m : MultiMeasurement) : str :=
  ljust 30 (file_B m) ++ lit "|" ++
  rjust 6 (dec (get_line (get_end m))) ++ lit "|" ++
  rjust 10 (dec (count m)) ++ lit "|" ++
  rjust 15 (thousands (dec (get_average_duration m))) ++ lit "|" ++
  rjust 15 (thousands (dec (get_overall_duration m))).

(** One block per aggregate: its two rows and the fill character of the
    separator line that follows them, a dash except after the last one. *)
Fixpoint blocks (ms : list MultiMeasurement) : list (str * str * ascii) :=
  match ms with
  | [] => []
  | [m] => [(row_A m, row_B m, "#"%char)]
  | m :: rest => (row_A m, row_B m, "-"%char) :: blocks rest
  end.

Definition block_rows (b : str * str * ascii) : list str :=
  [fst (fst b); snd (fst b); hline (snd b)].

(** The rows of the report, in order. *)
Definition report (ms : list MultiMeasurement) : list str :=
  banner ++ header ++ flat_map block_rows (blocks ms).

(** The text of a list of rows: each row is ended by a line feed. *)
Definition unlines (rows : list str) : str :=
  flat_map (fun r => r ++ [nl]) rows.

End Spec.

(** ** The program state: the printer object and [std::cerr] *)

Record World : Type := mk_world {
  printer : Printer;
  cerr : ostream
}.

(** A call of [add]. *)
Definition call_add (m : MultiMeasurement) (w : World) : World :=
  {| printer := add m (printer w); cerr := cerr w |}.

(** A call of [print]: a [const] member function, so the printer object
    of the world after the call is the one before it. *)
Definition call_print (w : World) : option World :=
  os <- print (printer w) (cerr w) ;;
  Some {| printer := printer w; cerr := os |}.

(** The printer after [add] has been called on each of [ms], in order, on a
    default-constructed printer. *)
Definition added (ms : list MultiMeasurement) : Printer :=
  fold_left (fun p m => add m p) ms (mk_printer []).

(** ** Reading a printed report back *)

Module Reading.

(** The lines of a text: the line feed ends a line. *)
Fixpoint lines_from (current : str) (t : str) : list str :=
  match t with
  | [] => match current with [] => [] | _ :: _ => [rev current] end
  | c :: rest =>
      if Ascii.eqb c nl then rev current :: lines_from [] rest
      else lines_from (c :: current) rest
  end.

Definition lines (t : str) : list str := lines_from [] t.

(** The column of the first bar of a row (its length when it has none). *)
Fixpoint bar_index (row : str) : nat :=
  match row with
  | [] => 0
  | c :: rest => if Ascii.eqb c "|"%char then 0 else S (bar_index rest)
  end.

(** The rows the code prints for one measurement on a fresh stream. *)
Definition printed_rows (m : MultiMeasurement) : list str :=
  match print_measurement m fresh with
  | Some os => lines (text os)
  | None => []
  end.

End Reading.

(** ** Sample data *)

Module Samples.

(** The end-to-end scenario of the specification. *)
Definition scenario : MultiMeasurement :=
  {| get_start := {| get_file := lit "src/a.cpp"; get_line := 10 |};
     get_end := {| get_file := lit "src/a.cpp"; get_line := 20 |};
     count := 2;
     get_average_duration := 1500;
     get_overall_duration := 3000 |}.

(** Start and end in files of the same name in different directories. *)
Definition same_name : MultiMeasurement :=
  {| get_start := {| get_file := lit "src/a.cpp"; get_line := 10 |};
     get_end := {| get_file := lit "test\a.cpp"; get_line := 20 |};
     count := 2;
     get_average_duration := 1500;
     get_overall_duration := 3000 |}.

(** Start and end in different files. *)
Definition two_files : MultiMeasurement :=
  {| get_start := {| get_file := lit "src/a.cpp"; get_line := 10 |};
     get_end := {| get_file := lit "src/b.cpp"; get_line := 7 |};
     count := 12;
     get_average_duration := 250;
     get_overall_duration := 3000 |}.

(** An end checkpoint whose file name ends in a path separator. *)
Definition ends_in_separator : MultiMeasurement :=
  {| get_start := {| get_file := lit "a.cpp"; get_line := 10 |};
     get_end := {| get_file := lit "src/"; get_line := 20 |};
     count := 2;
     get_average_duration := 1500;
     get_overall_duration := 3000 |}.

(** File names of exactly 30 characters. *)
Definition thirty : MultiMeasurement :=
  {| get_start := {| get_file := lit "src/abcdefghijklmnopqrstuvwxyz.cpp"; get_line := 10 |};
     get_end := {| get_file := lit "src/abcdefghijklmnopqrstuvwxyz.hpp"; get_line := 20 |};
     count := 2;
     get_average_duration := 1500;
     get_overall_duration := 3000 |}.

(** A file name of 34 characters and durations of more than 15
    characters. *)
Definition wide : MultiMeasurement :=
  {| get_start := {| get_file := lit "src/abcdefghijklmnopqrstuvwxyz0123.cpp"; get_line := 1234567 |};
     get_end := {| get_file := lit "src/b.cpp"; get_line := 20 |};
     count := 12345678901;
     get_average_duration := 1234567890123;
     get_overall_duration := 1234567890123456 |}.

End Samples.

(** ** Values that fit their columns *)

(** The values of a measurement are no wider than the columns they are
    printed in. *)
Definition fits_columns (m : MultiMeasurement) : Prop :=
  (List.length (Spec.basename (get_file (get_start m))) <= 30)%nat /\
  (List.length (Spec.basename (get_file (get_end m))) <= 30)%nat /\
  (List.length (dec (get_line (get_start m))) <= 6)%nat /\
  (List.length (dec (get_line (get_end m))) <= 6)%nat /\
  (List.length (dec (count m)) <= 10)%nat /\
  (List.length (Spec.thousands (dec (get_average_duration m))) <= 15)%nat /\
  (List.length (Spec.thousands (dec (get_overall_duration m))) <= 15)%nat.

(** The columns of the four bars of a row whose values fit. *)
Definition bar_columns : list nat := [30; 37; 48; 64]%nat.

(** A text without its commas. *)
Definition without_commas (t : str) : str :=
  filter (fun c => negb (Ascii.eqb c ","%char)) t.

(** ** Proof automation *)

(** Unfolds the manipulators and insertions of a [<<] chain. *)
Ltac run_stream :=
  cbv beta iota zeta delta
    [print_hline print_title print_header
     setfill setw left right put put_char endl padding
     text fill width adjust
     line_width file_col_width line_col_width count_col_width
     avg_duration_col_width ovr_duration_col_width].

(** Discharges [is_printer] and [is_measurement] on sample data. *)
Ltac well_typed_sample :=
  repeat match goal with
         | |- is_printer _ => split
         | |- is_measurement _ => split
         | |- is_long _ => split
         | |- Forall _ _ => constructor
         | |- _ /\ _ => split
         end;
  vm_compute; reflexivity || discriminate.

(** ** Machine integers: conversions that change nothing *)

Lemma to_size_t_id (z : Z) : 0 <= z < size_t_modulus -> to_size_t z = z.
Proof. intro H. unfold to_size_t. apply Z.mod_small. exact H. Qed.

Lemma to_int_id (z : Z) : - 2 ^ 31 <= z <= INT_MAX -> to_int z = z.
Proof.
  unfold to_int, INT_MAX. intro H.
  rewrite Z.mod_small; lia.
Qed.

Lemma npos_succ : to_size_t (StdString.npos + 1) = 0.
Proof. reflexivity. Qed.

Lemma pad_count (w : Z) (n : nat) :
  0 <= w -> Z.to_nat (w - Z.of_nat n) = (Z.to_nat w - n)%nat.
Proof. intro H. lia. Qed.

(** ** Decimal texts *)

Section DecimalTexts.

Lemma of_uint_acc_lower (d : Decimal.uint) :
  forall acc : positive,
    Z.pos acc * 10 ^ Z.of_nat (Decimal.nb_digits d) <= Z.pos (Pos.of_uint_acc d acc).
Proof.
  induction d; intro acc; cbn [Pos.of_uint_acc Decimal.nb_digits];
    try (rewrite Nat2Z.inj_succ, Z.pow_succ_r by lia;
         eapply Z.le_trans; [ | apply IHd ];
         assert (0 <= 10 ^ Z.of_nat (Decimal.nb_digits d)) by (apply Z.pow_nonneg; lia);
         nia).
  change (10 ^ Z.of_nat 0) with 1. lia.
Qed.

(** A decimal number that starts with a non-zero digit is at least
    10^(number of its digits - 1). *)
Lemma of_uint_lower (d : Decimal.uint) :
  Decimal.unorm d = d -> d <> Decimal.zero ->
  10 ^ (Z.of_nat (Decimal.nb_digits d) - 1) <= Z.of_N (Pos.of_uint d).
Proof.
  intros Hn Hz.
  destruct d as [ |d|d|d|d|d|d|d|d|d|d];
    try (cbn [Pos.of_uint Decimal.nb_digits Z.of_N];
         rewrite Nat2Z.inj_succ;
         replace (Z.succ (Z.of_nat (Decimal.nb_digits d)) - 1)
           with (Z.of_nat (Decimal.nb_digits d)) by lia;
         eapply Z.le_trans; [ | apply of_uint_acc_lower ]; lia).
  - discriminate Hn.
  - exfalso. rewrite unorm_D0 in Hn.
    destruct d as [ |d|d|d|d|d|d|d|d|d|d]; try (now apply Hz).
    all: match type of Hn with Decimal.unorm ?u = _ =>
           assert (Hl : (Decimal.nb_digits (Decimal.unorm u) <= Decimal.nb_digits u)%nat)
             by (apply nb_digits_unorm; discriminate) end;
         rewrite Hn in Hl; cbn [Decimal.nb_digits] in Hl; lia.
Qed.

Lemma to_uint_normal (p : positive) : Decimal.unorm (Pos.to_uint p) = Pos.to_uint p.
Proof. rewrite <- Unsigned.to_of, Unsigned.of_to. reflexivity. Qed.

Lemma nb_digits_to_uint (p : positive) :
  10 ^ (Z.of_nat (Decimal.nb_digits (Pos.to_uint p)) - 1) <= Z.pos p.
Proof.
  change (Z.pos p) with (Z.of_N (N.pos p)).
  rewrite <- Unsigned.of_to.
  apply of_uint_lower.
  - apply to_uint_normal.
  - apply Unsigned.to_uint_nonzero.
Qed.

Lemma length_string_of_uint (d : Decimal.uint) :
  List.length (list_ascii_of_string (NilEmpty.string_of_uint d)) = Decimal.nb_digits d.
Proof.
  induction d;
    cbn [NilEmpty.string_of_uint list_ascii_of_string List.length Decimal.nb_digits];
    congruence.
Qed.

Lemma digits_of_positive (p : positive) :
  NilZero.string_of_uint (Pos.to_uint p) = NilEmpty.string_of_uint (Pos.to_uint p).
Proof.
  generalize (Unsigned.to_uint_nonnil p).
  destruct (Pos.to_uint p); intro H; try reflexivity. now elim H.
Qed.

(** A positive number below 2^63 has at most 19 digits. *)
Lemma length_digits_positive (p : positive) :
  Z.pos p <= 2 ^ 63 ->
  (List.length (list_ascii_of_string (NilZero.string_of_uint (Pos.to_uint p))) <= 19)%nat.
Proof.
  intro Hp.
  rewrite digits_of_positive, length_string_of_uint.
  pose proof (nb_digits_to_uint p) as Hd.
  destruct (Nat.le_gt_cases (Decimal.nb_digits (Pos.to_uint p)) 19) as [Hle|Hgt];
    [exact Hle | exfalso].
  assert (H19 : 10 ^ 19 <= 10 ^ (Z.of_nat (Decimal.nb_digits (Pos.to_uint p)) - 1))
    by (apply Z.pow_le_mono_r; lia).
  assert (2 ^ 63 < 10 ^ 19) by reflexivity.
  lia.
Qed.

(** The text of a [long int] is at most 20 characters long. *)
Lemma length_dec_long (n : Z) : is_long n -> (List.length (dec n) <= 20)%nat.
Proof.
  unfold is_long, LONG_MIN, LONG_MAX, dec, sign_and_digits. intros [Hlo Hhi].
  destruct n as [ |p|p]; cbn [Z.to_int fst snd].
  - cbn. lia.
  - cbn [app]. pose proof (length_digits_positive p). lia.
  - cbn [app List.length]. pose proof (length_digits_positive p). lia.
Qed.

(** The text of a negative number is a minus sign and the text of its
    magnitude. *)
Lemma dec_negative (n : Z) : n < 0 -> dec n = "-"%char :: dec (- n).
Proof.
  destruct n as [ |p|p]; intro H; try lia. reflexivity.
Qed.

Lemma dec_nonnil (n : Z) : dec n <> [].
Proof.
  unfold dec, sign_and_digits.
  destruct n as [ |p|p]; cbn [Z.to_int fst snd app]; try discriminate.
  rewrite digits_of_positive.
  generalize (Unsigned.to_uint_nonnil p).
  destruct (Pos.to_uint p); intro H; try discriminate. now elim H.
Qed.

Lemma dec_string (n : Z) :
  dec n = list_ascii_of_string (NilZero.string_of_int (Z.to_int n)).
Proof. unfold dec, sign_and_digits. destruct (Z.to_int n); reflexivity. Qed.

(** Reading the text back gives the number. *)
Lemma dec_read_back (n : Z) :
  option_map Z.of_int (NilZero.int_of_string (string_of_list_ascii (dec n))) = Some n.
Proof.
  rewrite dec_string, string_of_list_ascii_of_string.
  rewrite NilZero.isi.
  - cbn [option_map]. now rewrite DecimalZ.of_to.
  - destruct n; cbn; try discriminate.
    intros [= E]. now apply (Unsigned.to_uint_nonnil p).
  - destruct n; cbn; try discriminate.
    intros [= E]. now apply (Unsigned.to_uint_nonnil p).
Qed.

Lemma digits_string_of_uint (d : Decimal.uint) :
  forallb Spec.is_digit (list_ascii_of_string (NilEmpty.string_of_uint d)) = true.
Proof.
  induction d; cbn [NilEmpty.string_of_uint list_ascii_of_string forallb];
    try rewrite IHd; reflexivity.
Qed.

(** The text of a non-negative number consists of digits only. *)
Lemma dec_digits (n : Z) : 0 <= n -> forallb Spec.is_digit (dec n) = true.
Proof.
  unfold dec, sign_and_digits.
  destruct n as [ |p|p]; intro H; try lia; cbn [Z.to_int fst snd app].
  - reflexivity.
  - rewrite digits_of_positive. apply digits_string_of_uint.
Qed.

End DecimalTexts.

(** ** Insertions into a stream *)

Lemma no_padding (c : ascii) (n : nat) : repeat c (Z.to_nat (0 - Z.of_nat n)) = [].
Proof. replace (Z.to_nat (0 - Z.of_nat n)) with 0%nat by lia. reflexivity. Qed.

(** Without a pending width an insertion appends its text as it is. *)
Lemma put_no_width (t txt : str) (f : ascii) (a : adjustfield) :
  put t (mk_ostream txt f 0 a) = mk_ostream (txt ++ t) f 0 a.
Proof.
  unfold put, padding. cbn [text fill width adjust].
  rewrite no_padding. destruct a; cbn [app]; rewrite ?List.app_nil_r; reflexivity.
Qed.

Lemma put_int_fresh (n : Z) : fresh << put_int n = mk_ostream (dec n) " "%char 0 adjust_unset.
Proof.
  unfold put_int, padding, fresh, dec. cbn [text fill width adjust].
  now rewrite no_padding.
Qed.

(** The element at an index in range heads the rest of the list. *)
Lemma nth_error_skipn {A : Type} (l : list A) :
  forall k : nat,
    (k < List.length l)%nat ->
    exists x, nth_error l k = Some x /\ skipn k l = x :: skipn (S k) l.
Proof.
  induction l as [ |y l IH]; intros k Hk; cbn [List.length] in Hk; [lia| ].
  destruct k as [ |k].
  - exists y. split; reflexivity.
  - destruct (IH k) as [x [Hx Hs]]; [lia| ].
    exists x. split; [exact Hx | exact Hs].
Qed.

(** ** insert_separators *)

Section Separators.

Variable n_str : str.
Hypothesis n_str_short : Z.of_nat (List.length n_str) <= INT_MAX.

(** The loop, started at position [k] with enough fuel for what is left,
    appends the rest of [n_str] with its commas and does not fail. *)
Lemma separators_loop_scan (rest : nat) :
  forall (k fuel : nat) (txt : str) (f : ascii) (a : adjustfield),
    (k + rest = List.length n_str)%nat -> (rest <= fuel)%nat ->
    separators_loop fuel n_str (Z.of_nat k) (mk_ostream txt f 0 a)
    = Some (mk_ostream (txt ++ Spec.scan_commas (skipn k n_str)) f 0 a).
Proof using n_str_short.
  unfold INT_MAX in n_str_short.
  induction rest as [ |r IH]; intros k fuel txt f a Hk Hfuel.
  - assert (Hguard : (to_size_t (Z.of_nat k) <? StdString.size n_str) = false).
    { unfold StdString.size. rewrite to_size_t_id by (unfold size_t_modulus; lia).
      apply Z.ltb_ge. lia. }
    replace k with (List.length n_str) by lia.
    rewrite skipn_all, List.app_nil_r.
    replace (List.length n_str) with k by lia.
    destruct fuel; cbn [separators_loop]; now rewrite Hguard.
  - destruct fuel as [ |fuel]; [lia| ].
    cbn [separators_loop].
    unfold StdString.size.
    rewrite (to_size_t_id (Z.of_nat k)) by (unfold size_t_modulus; lia).
    rewrite (to_size_t_id (Z.of_nat (List.length n_str) - 1))
      by (unfold size_t_modulus; lia).
    rewrite to_size_t_id by (unfold size_t_modulus; lia).
    replace (Z.of_nat k <? Z.of_nat (List.length n_str)) with true
      by (symmetry; apply Z.ltb_lt; lia).
    destruct (nth_error_skipn n_str k) as [c [Hc Hs]]; [lia| ].
    unfold StdString.at_, StdString.size.
    replace (Z.of_nat k <? Z.of_nat (List.length n_str)) with true
      by (symmetry; apply Z.ltb_lt; lia).
    rewrite Nat2Z.id, Hc. cbn [bind].
    unfold put_char. rewrite put_no_width.
    rewrite to_int_id by (unfold INT_MAX; lia).
    replace (Z.of_nat k + 1) with (Z.of_nat (S k)) by lia.
    rewrite Hs. cbn [Spec.scan_commas].
    assert (Hlen : List.length (skipn (S k) n_str) = r)
      by (rewrite length_skipn; lia).
    rewrite Hlen.
    replace (Z.of_nat (List.length n_str) - 1 - Z.of_nat k) with (Z.of_nat r) by lia.
    replace (3 <=? Z.of_nat r) with (3 <=? r)%nat
      by (destruct (Nat.leb_spec 3 r), (Z.leb_spec 3 (Z.of_nat r)); lia || reflexivity).
    replace (Z.of_nat r mod 3 =? 0) with (r mod 3 =? 0)%nat.
    2:{ change 3 with (Z.of_nat 3). rewrite <- Nat2Z.inj_mod.
        destruct (Nat.eqb_spec (r mod 3) 0), (Z.eqb_spec (Z.of_nat (r mod 3)) 0);
          lia || reflexivity. }
    destruct ((3 <=? r)%nat && (r mod 3 =? 0)%nat).
    + rewrite put_no_width, IH by lia.
      rewrite <- !app_assoc. reflexivity.
    + rewrite IH by lia.
      rewrite <- !app_assoc. reflexivity.
Qed.

End Separators.

(** Appending a character to the reversed text adds a comma before it
    exactly when the text so far consists of full groups. *)
Lemma group_from_lsd_snoc (c : ascii) (n : nat) :
  forall r : str,
    (List.length r <= n)%nat ->
    Spec.group_from_lsd (r ++ [c])
    = Spec.group_from_lsd r ++
      (if (3 <=? List.length r)%nat && (List.length r mod 3 =? 0)%nat
       then [","%char; c] else [c]).
Proof.
  induction n as [ |n IH]; intros r Hr.
  - destruct r; [reflexivity | cbn in Hr; lia].
  - destruct r as [ |x [ |y [ |z [ |w more]]]]; try reflexivity.
    cbn [List.length] in Hr.
    change ((x :: y :: z :: w :: more) ++ [c])
      with (x :: y :: z :: w :: (more ++ [c])).
    assert (Hstep : forall t : str,
               Spec.group_from_lsd (x :: y :: z :: w :: t)
               = x :: y :: z :: ","%char :: Spec.group_from_lsd (w :: t))
      by reflexivity.
    rewrite !Hstep.
    change (w :: more ++ [c]) with ((w :: more) ++ [c]).
    rewrite IH by (cbn [List.length]; lia).
    cbn [List.length].
    replace (S (S (S (S (List.length more))))) with (S (List.length more) + 1 * 3)%nat by lia.
    rewrite Nat.Div0.mod_add.
    replace (3 <=? S (List.length more) + 1 * 3)%nat with true
      by (symmetry; apply Nat.leb_le; lia).
    cbn [andb].
    destruct (Nat.leb_spec 3 (S (List.length more))) as [H3|H3].
    + reflexivity.
    + replace (S (List.length more) mod 3 =? 0)%nat with false; [reflexivity| ].
      symmetry. apply Nat.eqb_neq.
      rewrite Nat.mod_small by lia. lia.
Qed.

(** The left-to-right scan of the code and the grouping from the least
    significant digit of the specification agree on every text. *)
Lemma scan_commas_thousands (t : str) : Spec.scan_commas t = Spec.thousands t.
Proof.
  unfold Spec.thousands.
  induction t as [ |c rest IH]; [reflexivity| ].
  cbn [Spec.scan_commas rev].
  rewrite (group_from_lsd_snoc c (List.length (rev rest))) by lia.
  rewrite rev_app_distr, length_rev, <- IH.
  destruct ((3 <=? List.length rest)%nat && (List.length rest mod 3 =? 0)%nat);
    reflexivity.
Qed.

(** [insert_separators] returns, for every [long int], its text grouped
    from the right. *)
Lemma insert_separators_thousands (n : Z) :
  is_long n -> insert_separators n = Some (Spec.thousands (dec n)).
Proof.
  intro Hn. unfold insert_separators.
  rewrite put_int_fresh. unfold get_str, set_str. cbn [text fill width adjust].
  change 0 with (Z.of_nat 0) at 1.
  rewrite (separators_loop_scan (dec n)) with (rest := List.length (dec n)); try lia.
  - cbn [bind text skipn app]. now rewrite scan_commas_thousands.
  - pose proof (length_dec_long n Hn). unfold INT_MAX. lia.
Qed.

(** ** crop_path *)

Lemma is_one_of_separators (c : ascii) :
  StdString.is_one_of (lit "/\") c = Spec.is_separator c.
Proof.
  unfold StdString.is_one_of, Spec.is_separator, lit.
  cbn [list_ascii_of_string existsb]. now rewrite orb_false_r.
Qed.

Lemma basename_no_separator (s : str) :
  existsb Spec.is_separator s = false -> Spec.basename s = s.
Proof.
  destruct s as [ |c rest]; [reflexivity| ].
  cbn [existsb Spec.basename]. intro H.
  apply orb_false_elim in H. destruct H as [Hc Hrest].
  now rewrite Hrest, Hc.
Qed.

Lemma basename_after_last (pre : str) (c : ascii) (suf : str) :
  Spec.is_separator c = true -> existsb Spec.is_separator suf = false ->
  Spec.basename (pre ++ c :: suf) = suf.
Proof.
  intros Hc Hsuf.
  induction pre as [ |x pre IH]; cbn [app Spec.basename].
  - now rewrite Hsuf, Hc.
  - rewrite existsb_app. cbn [existsb]. rewrite Hc, orb_true_r. exact IH.
Qed.

(** The backward scan finds the last separator, or nothing when there is
    none. *)
Lemma scan_back_last (chars back : str) :
  forall i : Z,
    i = Z.of_nat (List.length back) - 1 ->
    (existsb (StdString.is_one_of chars) back = false /\
     StdString.scan_back chars back i = StdString.npos) \/
    (exists (pre : str) (c : ascii) (suf : str),
        rev back = pre ++ c :: suf /\
        StdString.is_one_of chars c = true /\
        existsb (StdString.is_one_of chars) suf = false /\
        StdString.scan_back chars back i = Z.of_nat (List.length pre)).
Proof.
  induction back as [ |c before IH]; intros i Hi.
  - left. split; reflexivity.
  - cbn [StdString.scan_back existsb rev].
    destruct (StdString.is_one_of chars c) eqn:Hc.
    + right. exists (rev before), c, []. repeat split; try assumption.
      rewrite length_rev. cbn [List.length] in Hi. lia.
    + destruct (IH (i - 1)) as [[Hnone Hscan] | [pre [d [suf [Hrev [Hd [Hsuf Hscan]]]]]]].
      * cbn [List.length] in Hi. lia.
      * left. split; [exact Hnone | exact Hscan].
      * right. exists pre, d, (suf ++ [c]). repeat split.
        -- rewrite Hrev, <- app_assoc. reflexivity.
        -- exact Hd.
        -- rewrite existsb_app. cbn [existsb]. now rewrite Hsuf, Hc.
        -- exact Hscan.
Qed.

Lemma existsb_rev {A : Type} (f : A -> bool) (l : list A) :
  existsb f (rev l) = existsb f l.
Proof.
  induction l as [ |x l IH]; [reflexivity| ].
  cbn [rev existsb]. rewrite existsb_app, IH. cbn [existsb].
  rewrite orb_false_r. apply orb_comm.
Qed.

Lemma existsb_pointwise {A : Type} (f g : A -> bool) (l : list A) :
  (forall a, f a = g a) -> existsb f l = existsb g l.
Proof.
  intro H. induction l as [ |x l IH]; [reflexivity| ].
  cbn [existsb]. now rewrite H, IH.
Qed.

(** [crop_path] does not throw and returns the base name. *)
Lemma crop_path_basename (file_name : str) :
  is_string file_name -> crop_path file_name = Some (Spec.basename file_name).
Proof.
  unfold is_string, crop_path, StdString.find_last_of, StdString.substr, StdString.size.
  cbv zeta. intro Hlen.
  destruct (scan_back_last (lit "/\") (rev file_name)
              (Z.of_nat (List.length file_name) - 1))
    as [[Hnone Hscan] | [pre [c [suf [Hrev [Hc [Hsuf Hscan]]]]]]].
  - now rewrite length_rev.
  - rewrite Hscan, npos_succ. cbn [Z.to_nat skipn].
    replace (0 <=? Z.of_nat (List.length file_name)) with true
      by (symmetry; apply Z.leb_le; lia).
    rewrite basename_no_separator; [reflexivity| ].
    rewrite existsb_rev in Hnone.
    rewrite <- Hnone. apply existsb_pointwise. intro a. symmetry. apply is_one_of_separators.
  - rewrite Hscan.
    rewrite rev_involutive in Hrev. subst file_name.
    rewrite length_app in Hlen. cbn [List.length] in Hlen.
    rewrite to_size_t_id by lia.
    replace (Z.of_nat (List.length pre) + 1 <=? Z.of_nat (List.length (pre ++ c :: suf)))
      with true
      by (symmetry; apply Z.leb_le; rewrite length_app; cbn [List.length]; lia).
    replace (Z.to_nat (Z.of_nat (List.length pre) + 1)) with (List.length pre + 1)%nat by lia.
    rewrite skipn_app, skipn_all2 by lia.
    replace (List.length pre + 1 - List.length pre)%nat with 1%nat by lia.
    cbn [app skipn].
    rewrite basename_after_last; [reflexivity | | ].
    + now rewrite <- is_one_of_separators.
    + rewrite <- Hsuf. apply existsb_pointwise. intro a. symmetry. apply is_one_of_separators.
Qed.

(** ** The lines of the report *)

Lemma print_hline_line (c : ascii) (os : ostream) :
  print_hline c os = mk_ostream (text os ++ Spec.hline c ++ [nl]) c 0 (adjust os).
Proof.
  destruct os as [txt f w a]. run_stream.
  f_equal. rewrite <- app_assoc. f_equal. f_equal.
  change (Z.to_nat (80 - Z.of_nat (List.length [c]))) with 79%nat.
  unfold Spec.hline.
  destruct a; reflexivity.
Qed.

Lemma print_title_lines (os : ostream) :
  print_title os
  = mk_ostream (text os ++ Spec.unlines Spec.banner) "#"%char 0 (adjust os).
Proof.
  destruct os as [txt f w a]. run_stream.
  f_equal. rewrite <- !app_assoc. f_equal.
  destruct a; vm_compute; reflexivity.
Qed.

Lemma print_header_lines (os : ostream) :
  print_header os
  = mk_ostream (text os ++ Spec.unlines Spec.header) "="%char 0 adjust_right.
Proof.
  destruct os as [txt f w a]. run_stream.
  f_equal. rewrite <- !app_assoc. f_equal.
Qed.

(** An integer in a right-adjusted stream. *)
Lemma put_int_right (n : Z) (txt : str) (f : ascii) (w : Z) :
  put_int n (mk_ostream txt f w adjust_right)
  = mk_ostream
      (txt ++ repeat f (Z.to_nat (w - Z.of_nat (List.length (dec n)))) ++ dec n)
      f 0 adjust_right.
Proof. reflexivity. Qed.

(** The two rows of one measurement. *)
Lemma print_measurement_rows (m : MultiMeasurement) (os : ostream) :
  is_measurement m ->
  print_measurement m os
  = Some (mk_ostream (text os ++ Spec.row_A m ++ [nl] ++ Spec.row_B m ++ [nl])
            " "%char 0 adjust_right).
Proof.
  intros [Hstart [Hend [Havg Hovr]]].
  destruct os as [txt f w a].
  unfold print_measurement.
  rewrite (crop_path_basename _ Hstart), (crop_path_basename _ Hend).
  rewrite (insert_separators_thousands _ Havg), (insert_separators_thousands _ Hovr).
  cbn [bind]. f_equal.
  run_stream. rewrite !put_int_right. run_stream.
  f_equal.
  unfold Spec.row_A, Spec.row_B, Spec.file_B, Spec.ljust, Spec.rjust.
  rewrite !pad_count by lia.
  rewrite <- !app_assoc.
  reflexivity.
Qed.

(** ** The loop over the measurements *)

Lemma blocks_cons (m : MultiMeasurement) (l : list MultiMeasurement) :
  Spec.blocks (m :: l)
  = (Spec.row_A m, Spec.row_B m,
     match l with [] => "#"%char | _ :: _ => "-"%char end) :: Spec.blocks l.
Proof. destruct l; reflexivity. Qed.

Lemma unlines_app (a b : list str) :
  Spec.unlines (a ++ b) = Spec.unlines a ++ Spec.unlines b.
Proof. unfold Spec.unlines. apply flat_map_app. Qed.

Lemma unlines_block (a b : str) (c : ascii) :
  Spec.unlines (Spec.block_rows (a, b, c))
  = a ++ [nl] ++ b ++ [nl] ++ Spec.hline c ++ [nl].
Proof.
  unfold Spec.unlines, Spec.block_rows. cbn [flat_map fst snd].
  rewrite List.app_nil_r, <- !app_assoc. reflexivity.
Qed.

Section Loop.

Variable ms : list MultiMeasurement.
Hypothesis count_fits : Z.of_nat (List.length ms) <= INT_MAX.
Hypothesis well_typed : Forall is_measurement ms.

(** Started at index [k] with enough fuel for what is left, the loop
    prints the blocks of the measurements from [k] on and does not fail. *)
Lemma print_loop_blocks (rest : nat) :
  forall (k fuel : nat) (os : ostream),
    (k + rest = List.length ms)%nat -> (rest <= fuel)%nat ->
    exists os' : ostream,
      print_loop fuel ms (Z.of_nat k) os = Some os' /\
      text os'
      = text os ++ Spec.unlines (flat_map Spec.block_rows (Spec.blocks (skipn k ms))).
Proof using count_fits well_typed.
  unfold INT_MAX in count_fits.
  induction rest as [ |r IH]; intros k fuel os Hk Hfuel.
  - exists os.
    assert (Hguard : (to_size_t (Z.of_nat k) <? Z.of_nat (List.length ms)) = false).
    { rewrite to_size_t_id by (unfold size_t_modulus; lia). apply Z.ltb_ge. lia. }
    split.
    + destruct fuel; cbn [print_loop]; now rewrite Hguard.
    + rewrite skipn_all2 by lia. cbn. now rewrite List.app_nil_r.
  - destruct fuel as [ |fuel]; [lia| ].
    cbn [print_loop].
    rewrite (to_size_t_id (Z.of_nat k)) by (unfold size_t_modulus; lia).
    rewrite (to_size_t_id (Z.of_nat (List.length ms) - 1))
      by (unfold size_t_modulus; lia).
    replace (Z.of_nat k <? Z.of_nat (List.length ms)) with true
      by (symmetry; apply Z.ltb_lt; lia).
    destruct (nth_error_skipn ms k) as [m [Hm Hs]]; [lia| ].
    rewrite Nat2Z.id, Hm. cbn [bind].
    assert (Hwt : is_measurement m).
    { apply (proj1 (Forall_forall is_measurement ms) well_typed).
      eapply nth_error_In. exact Hm. }
    rewrite (print_measurement_rows m os Hwt). cbn [bind].
    rewrite print_hline_line. cbn [text adjust].
    rewrite to_int_id by (unfold INT_MAX; lia).
    replace (Z.of_nat k + 1) with (Z.of_nat (S k)) by lia.
    edestruct (IH (S k) fuel) as [os' [Hrun Htext]]; [lia | lia | ].
    exists os'. split; [exact Hrun| ].
    rewrite Htext. cbn [text].
    rewrite Hs, blocks_cons.
    cbn [flat_map]. rewrite unlines_app.
    assert (Hlen : List.length (skipn (S k) ms) = r) by (rewrite length_skipn; lia).
    replace (if Z.of_nat k <? Z.of_nat (List.length ms) - 1 then "-"%char else "#"%char)
      with (match skipn (S k) ms with [] => "#"%char | _ :: _ => "-"%char end).
    2:{ destruct (skipn (S k) ms) as [ |x l]; cbn [List.length] in Hlen.
        - replace (Z.of_nat k <? Z.of_nat (List.length ms) - 1) with false;
            [reflexivity | symmetry; apply Z.ltb_ge; lia].
        - replace (Z.of_nat k <? Z.of_nat (List.length ms) - 1) with true;
            [reflexivity | symmetry; apply Z.ltb_lt; lia]. }
    rewrite unlines_block, <- !app_assoc. reflexivity.
Qed.

End Loop.

(** [print()] does not fail on a well-typed printer and appends the report
    of the specification to the stream, whatever the state of the stream
    was. *)
Lemma print_report (p : Printer) (os : ostream) :
  is_printer p ->
  exists os' : ostream,
    print p os = Some os' /\
    text os' = text os ++ Spec.unlines (Spec.report (measurements_ p)).
Proof.
  intros [Hcount Hwt]. unfold print.
  destruct (print_loop_blocks (measurements_ p) Hcount Hwt
              (List.length (measurements_ p)) 0 (List.length (measurements_ p))
              (print_header (print_title os)))
    as [os' [Hrun Htext]]; [lia | lia | ].
  exists os'. split; [exact Hrun| ].
  rewrite Htext, print_header_lines, print_title_lines. cbn [text skipn].
  unfold Spec.report. rewrite !unlines_app, <- !app_assoc. reflexivity.
Qed.

(** ** Where the commas are *)

Lemma digit_not_comma (c : ascii) : Spec.is_digit c = true -> c <> ","%char.
Proof. intros H ->. discriminate H. Qed.

Lemma keep_digit (c : ascii) :
  Spec.is_digit c = true -> negb (Ascii.eqb c ","%char) = true.
Proof.
  intro H. apply negb_true_iff, Ascii.eqb_neq. now apply digit_not_comma.
Qed.

(** In the grouped digits, counted from the least significant one, the
    commas are exactly the characters at the positions 3, 7, 11, ... *)
Lemma group_comma_positions (n : nat) :
  forall r : str,
    (List.length r <= n)%nat -> forallb Spec.is_digit r = true ->
    forall (i : nat) (c : ascii),
      nth_error (Spec.group_from_lsd r) i = Some c ->
      (c = ","%char <-> (i mod 4 = 3)%nat).
Proof.
  induction n as [ |n IH]; intros r Hlen Hdig i c Hnth.
  - destruct r; [ | cbn in Hlen; lia]. destruct i; discriminate Hnth.
  - assert (Hsmall : forall t : str,
               forallb Spec.is_digit t = true -> (List.length t <= 3)%nat ->
               nth_error t i = Some c -> (c = ","%char <-> (i mod 4 = 3)%nat)).
    { intros t Ht Hl Hi.
      assert (Hd : Spec.is_digit c = true).
      { apply (proj1 (forallb_forall Spec.is_digit t) Ht). eapply nth_error_In, Hi. }
      assert (Hlt : (i < List.length t)%nat) by (apply nth_error_Some; congruence).
      split; intro H.
      - now apply digit_not_comma in Hd.
      - rewrite Nat.mod_small in H by lia. lia. }
    destruct r as [ |x [ |y [ |z [ |w more]]]];
      try (apply (Hsmall _ Hdig); [cbn; lia | exact Hnth]).
    assert (Hstep : Spec.group_from_lsd (x :: y :: z :: w :: more)
                    = x :: y :: z :: ","%char :: Spec.group_from_lsd (w :: more))
      by reflexivity.
    rewrite Hstep in Hnth.
    cbn [forallb] in Hdig.
    apply andb_prop in Hdig. destruct Hdig as [Hx Hdig].
    apply andb_prop in Hdig. destruct Hdig as [Hy Hdig].
    apply andb_prop in Hdig. destruct Hdig as [Hz Hdig].
    destruct i as [ |[ |[ |[ |j]]]]; cbn [nth_error] in Hnth.
    + injection Hnth as <-. split; [intro E; now apply digit_not_comma in Hx | discriminate].
    + injection Hnth as <-. split; [intro E; now apply digit_not_comma in Hy | discriminate].
    + injection Hnth as <-. split; [intro E; now apply digit_not_comma in Hz | discriminate].
    + injection Hnth as <-. split; reflexivity.
    + replace (S (S (S (S j)))) with (j + 1 * 4)%nat by lia.
      rewrite Nat.Div0.mod_add.
      apply (IH (w :: more)); [cbn [List.length] in *; lia | exact Hdig | exact Hnth].
Qed.

(** Taking the commas out of the grouped digits gives the digits back. *)
Lemma group_without_commas (n : nat) :
  forall r : str,
    (List.length r <= n)%nat -> forallb Spec.is_digit r = true ->
    filter (fun c => negb (Ascii.eqb c ","%char)) (Spec.group_from_lsd r) = r.
Proof.
  assert (Hplain : forall t : str,
             forallb Spec.is_digit t = true ->
             filter (fun c => negb (Ascii.eqb c ","%char)) t = t).
  { induction t as [ |x t IHt]; [reflexivity| ].
    cbn [forallb filter]. intro H. apply andb_prop in H. destruct H as [Hx Ht].
    now rewrite (keep_digit x Hx), IHt. }
  induction n as [ |n IH]; intros r Hlen Hdig.
  - destruct r; [reflexivity | cbn in Hlen; lia].
  - destruct r as [ |x [ |y [ |z [ |w more]]]]; try (now apply Hplain).
    assert (Hstep : Spec.group_from_lsd (x :: y :: z :: w :: more)
                    = x :: y :: z :: ","%char :: Spec.group_from_lsd (w :: more))
      by reflexivity.
    rewrite Hstep.
    cbn [forallb] in Hdig.
    apply andb_prop in Hdig. destruct Hdig as [Hx Hdig].
    apply andb_prop in Hdig. destruct Hdig as [Hy Hdig].
    apply andb_prop in Hdig. destruct Hdig as [Hz Hdig].
    cbn [filter].
    rewrite (keep_digit x Hx), (keep_digit y Hy), (keep_digit z Hz).
    change (negb (Ascii.eqb ","%char ","%char)) with false. cbn iota.
    rewrite (IH (w :: more)); [reflexivity | cbn [List.length] in *; lia | exact Hdig].
Qed.

Lemma forallb_rev {A : Type} (f : A -> bool) (l : list A) :
  forallb f l = true -> forallb f (rev l) = true.
Proof.
  intro H. apply forallb_forall. intros x Hx.
  apply (proj1 (forallb_forall f l) H). now apply in_rev.
Qed.

Lemma filter_rev_commute {A : Type} (f : A -> bool) (l : list A) :
  filter f (rev l) = rev (filter f l).
Proof.
  induction l as [ |x l IH]; [reflexivity| ].
  cbn [rev filter]. rewrite filter_app, IH. cbn [filter].
  destruct (f x); cbn [rev]; [reflexivity | apply List.app_nil_r].
Qed.

Lemma thousands_comma_positions (t : str) :
  forallb Spec.is_digit t = true ->
  forall (i : nat) (c : ascii),
    nth_error (rev (Spec.thousands t)) i = Some c ->
    (c = ","%char <-> (i mod 4 = 3)%nat).
Proof.
  intros Ht i c. unfold Spec.thousands. rewrite rev_involutive.
  apply (group_comma_positions (List.length (rev t))); [lia | now apply forallb_rev].
Qed.

Lemma thousands_without_commas (t : str) :
  forallb Spec.is_digit t = true ->
  filter (fun c => negb (Ascii.eqb c ","%char)) (Spec.thousands t) = t.
Proof.
  intro Ht. unfold Spec.thousands.
  rewrite filter_rev_commute.
  rewrite (group_without_commas (List.length (rev t))); [ | lia | now apply forallb_rev].
  apply rev_involutive.
Qed.

(** * The properties of the report *)

(** ** Thousands separators *)

(** C2.  For every non-negative [long int], [insert_separators] returns the
    decimal digit string of the input with commas: what it returns consists
    of the digits of the input (reading them back gives the input, and
    taking the commas out gives the digits), the commas are exactly the
    characters at the positions 3, 7, 11, ... counted from the least
    significant digit, so that a comma follows every group of three digits
    counted from the right and no comma follows the final digit, and it is
    the grouping [Spec.thousands] of the specification.  In particular 0
    gives 0, 999 gives 999, 1000 gives 1,000 and 1234567 gives 1,234,567. *)
Theorem insert_separators_groups_of_three (n : Z)
  (Hnonneg : 0 <= n) (Hlong : n <= LONG_MAX) :
  exists out : str,
    insert_separators n = Some out /\
    out = Spec.thousands (dec n) /\
    forallb Spec.is_digit (dec n) = true /\
    option_map Z.of_int (NilZero.int_of_string (string_of_list_ascii (dec n))) = Some n /\
    filter (fun c => negb (Ascii.eqb c ","%char)) out = dec n /\
    (forall (i : nat) (c : ascii),
        nth_error (rev out) i = Some c -> (c = ","%char <-> (i mod 4 = 3)%nat)) /\
    insert_separators 0 = Some (lit "0") /\
    insert_separators 999 = Some (lit "999") /\
    insert_separators 1000 = Some (lit "1,000") /\
    insert_separators 1234567 = Some (lit "1,234,567").
Proof.
  assert (Hl : is_long n) by (unfold is_long, LONG_MIN, LONG_MAX in *; lia).
  pose proof (dec_digits n Hnonneg) as Hdig.
  exists (Spec.thousands (dec n)).
  split; [now apply insert_separators_thousands| ].
  split; [reflexivity| ].
  split; [exact Hdig| ].
  split; [apply dec_read_back| ].
  split; [now apply thousands_without_commas| ].
  split; [now apply thousands_comma_positions| ].
  repeat split; reflexivity.
Qed.

Lemma insert_separators_groups_of_three_witness :
  exists out : str,
    insert_separators 1234567 = Some out /\
    out = Spec.thousands (dec 1234567) /\
    forallb Spec.is_digit (dec 1234567) = true /\
    option_map Z.of_int (NilZero.int_of_string (string_of_list_ascii (dec 1234567)))
    = Some 1234567 /\
    filter (fun c => negb (Ascii.eqb c ","%char)) out = dec 1234567 /\
    (forall (i : nat) (c : ascii),
        nth_error (rev out) i = Some c -> (c = ","%char <-> (i mod 4 = 3)%nat)) /\
    insert_separators 0 = Some (lit "0") /\
    insert_separators 999 = Some (lit "999") /\
    insert_separators 1000 = Some (lit "1,000") /\
    insert_separators 1234567 = Some (lit "1,234,567").
Proof.
  apply (insert_separators_groups_of_three 1234567).
  - lia.
  - unfold LONG_MAX. lia.
Defined.

(** C9.  For every negative [long int] the grouping scan runs over the
    signed text, minus sign included: the result is the minus sign, then a
    comma when the number of digits of the magnitude is a multiple of 3,
    then the grouped magnitude.  So -100 gives -,100 and -100000 gives
    -,100,000, while -1000 gives -1,000. *)
Theorem insert_separators_negative (n : Z)
  (Hneg : n < 0) (Hlong : LONG_MIN <= n) :
  insert_separators n
  = Some ("-"%char ::
          (if (List.length (dec (- n)) mod 3 =? 0)%nat then [","%char] else []) ++
          Spec.thousands (dec (- n))) /\
  ((List.length (dec (- n)) mod 3 = 0)%nat ->
   exists rest : str, insert_separators n = Some ("-"%char :: ","%char :: rest)) /\
  insert_separators (-100) = Some (lit "-,100") /\
  insert_separators (-100000) = Some (lit "-,100,000") /\
  insert_separators (-1000) = Some (lit "-1,000").
Proof.
  assert (Hl : is_long n) by (unfold is_long, LONG_MIN, LONG_MAX in *; lia).
  assert (Hshape :
    insert_separators n
    = Some ("-"%char ::
            (if (List.length (dec (- n)) mod 3 =? 0)%nat then [","%char] else []) ++
            Spec.thousands (dec (- n)))).
  { rewrite (insert_separators_thousands n Hl).
    rewrite <- !scan_commas_thousands, (dec_negative n Hneg).
    cbn [Spec.scan_commas].
    pose proof (dec_nonnil (- n)) as Hnil.
    destruct (Nat.eqb_spec (List.length (dec (- n)) mod 3) 0) as [Hm|Hm].
    - replace (3 <=? List.length (dec (- n)))%nat with true; [reflexivity| ].
      symmetry. apply Nat.leb_le.
      destruct (dec (- n)) as [ |a [ |b [ |c l]]]; cbn [List.length] in *;
        try discriminate Hm; try lia. now elim Hnil.
    - rewrite andb_false_r. reflexivity. }
  split; [exact Hshape| ].
  split.
  - intro Hm. rewrite Hshape. rewrite (proj2 (Nat.eqb_eq _ _) Hm).
    eexists. reflexivity.
  - repeat split; reflexivity.
Qed.

Lemma insert_separators_negative_witness :
  -100000 < 0 /\
  LONG_MIN <= -100000 /\
  (List.length (dec (- (-100000))) mod 3 = 0)%nat /\
  insert_separators (-100000)
  = Some ("-"%char :: [","%char] ++ Spec.thousands (dec 100000)) /\
  exists rest : str, insert_separators (-100000) = Some ("-"%char :: ","%char :: rest).
Proof.
  assert (Hneg : -100000 < 0) by lia.
  assert (Hlong : LONG_MIN <= -100000) by (unfold LONG_MIN; lia).
  destruct (insert_separators_negative (-100000) Hneg Hlong) as [Hshape [Hcomma _]].
  split; [exact Hneg| ].
  split; [exact Hlong| ].
  split; [reflexivity| ].
  split; [exact Hshape| ].
  apply Hcomma. reflexivity.
Defined.

(** ** Path shortening *)

Lemma basename_split (s : str) :
  (existsb Spec.is_separator s = false /\ Spec.basename s = s) \/
  (exists (pre : str) (c : ascii),
      s = pre ++ c :: Spec.basename s /\
      Spec.is_separator c = true /\
      existsb Spec.is_separator (Spec.basename s) = false).
Proof.
  induction s as [ |c rest IH].
  - left. split; reflexivity.
  - cbn [Spec.basename existsb].
    destruct (existsb Spec.is_separator rest) eqn:Hrest.
    + right. destruct IH as [[Hnone _] | [pre [d [Hsplit [Hd Hbase]]]]];
        [discriminate Hnone| ].
      exists (c :: pre), d. repeat split; try assumption.
      cbn [app]. now rewrite <- Hsplit.
    + destruct (Spec.is_separator c) eqn:Hc.
      * right. exists [], c. repeat split; assumption.
      * left. split; reflexivity.
Qed.

(** C6.  For every string, [crop_path] returns what strictly follows the
    last slash or backslash of the input, and the input unchanged when it
    has neither: either no character of the input is a separator and the
    result is the input, or the input is a prefix, a separator and the
    result, and the result has no separator.  In particular a/b/c.cpp,
    c.cpp and a\b\c.cpp all give c.cpp. *)
Theorem crop_path_after_last_separator (file_name : str)
  (Hstring : is_string file_name) :
  exists base : str,
    crop_path file_name = Some base /\
    ((existsb Spec.is_separator file_name = false /\ base = file_name) \/
     (exists (pre : str) (c : ascii),
         file_name = pre ++ c :: base /\
         (c = "/"%char \/ c = "\"%char) /\
         existsb Spec.is_separator base = false)) /\
    crop_path (lit "a/b/c.cpp") = Some (lit "c.cpp") /\
    crop_path (lit "c.cpp") = Some (lit "c.cpp") /\
    crop_path (lit "a\b\c.cpp") = Some (lit "c.cpp").
Proof.
  exists (Spec.basename file_name).
  split; [now apply crop_path_basename| ].
  split.
  - destruct (basename_split file_name) as [H | [pre [c [Hsplit [Hc Hbase]]]]].
    + left. exact H.
    + right. exists pre, c. repeat split; try assumption.
      unfold Spec.is_separator in Hc. apply orb_prop in Hc.
      destruct Hc as [Hc|Hc]; apply Ascii.eqb_eq in Hc; [now left | now right].
  - repeat split; reflexivity.
Qed.

Lemma crop_path_after_last_separator_witness :
  exists base : str,
    crop_path (lit "src\speedo/printer.h") = Some base /\
    ((existsb Spec.is_separator (lit "src\speedo/printer.h") = false /\
      base = lit "src\speedo/printer.h") \/
     (exists (pre : str) (c : ascii),
         lit "src\speedo/printer.h" = pre ++ c :: base /\
         (c = "/"%char \/ c = "\"%char) /\
         existsb Spec.is_separator base = false)) /\
    crop_path (lit "a/b/c.cpp") = Some (lit "c.cpp") /\
    crop_path (lit "c.cpp") = Some (lit "c.cpp") /\
    crop_path (lit "a\b\c.cpp") = Some (lit "c.cpp").
Proof.
  apply (crop_path_after_last_separator (lit "src\speedo/printer.h")).
  unfold is_string, size_t_modulus. vm_compute. reflexivity.
Defined.

(** ** The banner and the empty report *)

(** C5.  The report begins with a banner of three lines of 80 characters:
    the first and the third are 80 fill characters, and the second is
    (80 - 23) / 2 = 28 fill characters, the title of 23 characters, one
    more fill character because 23 is odd, and 28 more fill characters.
    This is what [print_title] appends, in any state of the stream, and
    what [print] appends first. *)
Theorem title_banner (p : Printer) (os : ostream) (Hp : is_printer p) :
  let fill_line := repeat "#"%char 80 in
  let title := lit " PROFILING WITH SPEEDO " in
  let middle := repeat "#"%char 28 ++ title ++ ["#"%char] ++ repeat "#"%char 28 in
  text (print_title os)
  = text os ++ fill_line ++ [nl] ++ middle ++ [nl] ++ fill_line ++ [nl] /\
  List.length title = 23%nat /\
  to_int (to_size_t (line_width - StdString.size title) / 2) = 28 /\
  StdString.size title mod 2 = 1 /\
  List.length middle = 80%nat /\
  List.length fill_line = 80%nat /\
  exists (os' : ostream) (rest : str),
    print p os = Some os' /\
    text os'
    = text os ++ fill_line ++ [nl] ++ middle ++ [nl] ++ fill_line ++ [nl] ++ rest.
Proof.
  cbv zeta.
  split.
  { rewrite print_title_lines. cbn [text]. f_equal. }
  repeat (split; [reflexivity| ]).
  destruct (print_report p os Hp) as [os' [Hrun Htext]].
  exists os'. eexists. split; [exact Hrun| ].
  rewrite Htext. unfold Spec.report. rewrite !unlines_app.
  f_equal.
  change (Spec.unlines Spec.banner)
    with (repeat "#"%char 80 ++ [nl] ++
          (repeat "#"%char 28 ++ lit " PROFILING WITH SPEEDO " ++ ["#"%char] ++
           repeat "#"%char 28) ++ [nl] ++ repeat "#"%char 80 ++ [nl]).
  rewrite <- !app_assoc. reflexivity.
Qed.

Lemma title_banner_witness :
  exists (os' : ostream) (rest : str),
    print (added [Samples.scenario]) fresh = Some os' /\
    text os'
    = text fresh ++ repeat "#"%char 80 ++ [nl] ++
      (repeat "#"%char 28 ++ lit " PROFILING WITH SPEEDO " ++ ["#"%char] ++
       repeat "#"%char 28) ++ [nl] ++ repeat "#"%char 80 ++ [nl] ++ rest.
Proof.
  assert (Hp : is_printer (added [Samples.scenario])).
  { split.
    - vm_compute. discriminate.
    - repeat constructor; vm_compute; reflexivity || discriminate. }
  exact (proj2 (proj2 (proj2 (proj2 (proj2 (proj2
           (title_banner (added [Samples.scenario]) fresh Hp))))))).
Defined.

(** C7.  With no aggregate added, [print] appends the three lines of the
    banner, the header row and one line of 80 equal signs, and nothing
    else: no row of an aggregate and no line of dashes or hashes. *)
Theorem empty_report (os : ostream) :
  measurements_ (added []) = [] /\
  exists os' : ostream,
    print (added []) os = Some os' /\
    text os'
    = text os ++
      repeat "#"%char 80 ++ [nl] ++
      lit "############################ PROFILING WITH SPEEDO #############################"
      ++ [nl] ++
      repeat "#"%char 80 ++ [nl] ++
      lit "File                          | Line |    Count |  Average [us] |   Overall [us]"
      ++ [nl] ++
      repeat "="%char 80 ++ [nl].
Proof.
  split; [reflexivity| ].
  destruct (print_report (added []) os) as [os' [Hrun Htext]].
  - split; [vm_compute; discriminate | constructor].
  - exists os'. split; [exact Hrun| ].
    rewrite Htext. f_equal.
Qed.

(** ** The rows and the separators of the aggregates *)

Lemma measurements_added (ms : list MultiMeasurement) :
  measurements_ (added ms) = ms.
Proof.
  unfold added.
  assert (H : forall (l : list MultiMeasurement) (p : Printer),
             measurements_ (fold_left (fun q m => add m q) l p) = measurements_ p ++ l).
  { induction l as [ |m l IH]; intro p; cbn [fold_left].
    - now rewrite List.app_nil_r.
    - rewrite IH. unfold add. cbn [measurements_]. now rewrite <- app_assoc. }
  now rewrite H.
Qed.

Lemma blocks_rows (ms : list MultiMeasurement) :
  map fst (Spec.blocks ms) = map (fun m => (Spec.row_A m, Spec.row_B m)) ms.
Proof.
  induction ms as [ |m l IH]; [reflexivity| ].
  rewrite blocks_cons. cbn [map fst]. now rewrite IH.
Qed.

Lemma blocks_fills (ms : list MultiMeasurement) :
  ms <> [] ->
  map snd (Spec.blocks ms) = repeat "-"%char (List.length ms - 1) ++ ["#"%char].
Proof.
  induction ms as [ |m l IH]; intro Hne; [now elim Hne| ].
  rewrite blocks_cons. cbn [map snd List.length].
  destruct l as [ |m' l'].
  - reflexivity.
  - rewrite IH by discriminate.
    cbn [List.length Nat.sub]. rewrite !Nat.sub_0_r. reflexivity.
Qed.

(** The report of the added aggregates, with the rows of the blocks
    written out. *)
Lemma print_added (ms : list MultiMeasurement) (os : ostream) :
  is_printer (added ms) ->
  exists os' : ostream,
    print (added ms) os = Some os' /\
    text os'
    = text os ++ Spec.unlines (Spec.banner ++ Spec.header) ++
      Spec.unlines
        (flat_map (fun b : str * str * ascii =>
                     [fst (fst b); snd (fst b); repeat (snd b) 80])
           (Spec.blocks ms)).
Proof.
  intro Hp.
  destruct (print_report (added ms) os Hp) as [os' [Hrun Htext]].
  exists os'. split; [exact Hrun| ].
  rewrite Htext, measurements_added. unfold Spec.report.
  rewrite app_assoc, unlines_app. reflexivity.
Qed.

(** C1.  For every added aggregate [print] emits exactly two rows, in the
    order of addition, each followed by a separator line.  Row A is the
    base name of the start file left-aligned in 30 columns, a bar, the
    start line right-aligned in 6 columns, a bar, 10 spaces, a bar, 15
    spaces and a bar, with no Overall field.  Row B is its file field
    left-aligned in 30 columns, a bar, the end line in 6 columns, a bar,
    the count as a plain integer in 10 columns, a bar, the average
    duration with thousands separators in 15 columns, a bar, and the
    overall duration with thousands separators in 15 columns.  The base
    names and the durations are what [crop_path] and [insert_separators]
    return.  In the end-to-end scenario of the specification the rows are
    the two lines given. *)
Theorem two_rows_per_aggregate (ms : list MultiMeasurement) (os : ostream)
  (Hp : is_printer (added ms)) :
  (exists os' : ostream,
      print (added ms) os = Some os' /\
      text os'
      = text os ++ Spec.unlines (Spec.banner ++ Spec.header) ++
        Spec.unlines
          (flat_map (fun b : str * str * ascii =>
                       [fst (fst b); snd (fst b); repeat (snd b) 80])
             (Spec.blocks ms))) /\
  map fst (Spec.blocks ms) = map (fun m => (Spec.row_A m, Spec.row_B m)) ms /\
  (forall m : MultiMeasurement,
      In m ms ->
      (forall os0 : ostream,
          exists os1 : ostream,
            print_measurement m os0 = Some os1 /\
            text os1 = text os0 ++ Spec.row_A m ++ [nl] ++ Spec.row_B m ++ [nl]) /\
      exists base_start base_end average overall : str,
        crop_path (get_file (get_start m)) = Some base_start /\
        crop_path (get_file (get_end m)) = Some base_end /\
        insert_separators (get_average_duration m) = Some average /\
        insert_separators (get_overall_duration m) = Some overall /\
        Spec.row_A m
        = Spec.ljust 30 base_start ++ lit "|" ++
          Spec.rjust 6 (dec (get_line (get_start m))) ++ lit "|" ++
          repeat " "%char 10 ++ lit "|" ++
          repeat " "%char 15 ++ lit "|" /\
        Spec.row_B m
        = Spec.ljust 30 (if StdString.eqb base_start base_end then [] else base_end)
          ++ lit "|" ++
          Spec.rjust 6 (dec (get_line (get_end m))) ++ lit "|" ++
          Spec.rjust 10 (dec (count m)) ++ lit "|" ++
          Spec.rjust 15 average ++ lit "|" ++
          Spec.rjust 15 overall) /\
  Spec.row_A Samples.scenario
  = lit "a.cpp                         |    10|          |               |" /\
  Spec.row_B Samples.scenario
  = lit "                              |    20|         2|          1,500|          3,000".
Proof.
  split; [now apply print_added| ].
  split; [apply blocks_rows| ].
  split; [ | split; reflexivity].
  intros m Hin.
  destruct Hp as [_ Hwt]. rewrite measurements_added in Hwt.
  pose proof (proj1 (Forall_forall is_measurement ms) Hwt m Hin) as Hm.
  split.
  - intro os0. eexists. split; [now apply print_measurement_rows | reflexivity].
  - destruct Hm as [Hs [He [Ha Ho]]].
    exists (Spec.basename (get_file (get_start m))),
           (Spec.basename (get_file (get_end m))),
           (Spec.thousands (dec (get_average_duration m))),
           (Spec.thousands (dec (get_overall_duration m))).
    split; [now apply crop_path_basename| ].
    split; [now apply crop_path_basename| ].
    split; [now apply insert_separators_thousands| ].
    split; [now apply insert_separators_thousands| ].
    split; reflexivity.
Qed.

Lemma two_rows_per_aggregate_witness :
  is_printer (added [Samples.scenario; Samples.two_files]) /\
  exists os' : ostream,
    print (added [Samples.scenario; Samples.two_files]) fresh = Some os' /\
    text os'
    = text fresh ++ Spec.unlines (Spec.banner ++ Spec.header) ++
      Spec.unlines
        (flat_map (fun b : str * str * ascii =>
                     [fst (fst b); snd (fst b); repeat (snd b) 80])
           (Spec.blocks [Samples.scenario; Samples.two_files])).
Proof.
  assert (Hp : is_printer (added [Samples.scenario; Samples.two_files]))
    by well_typed_sample.
  split; [exact Hp| ].
  exact (proj1 (two_rows_per_aggregate
                  [Samples.scenario; Samples.two_files] fresh Hp)).
Defined.

(** C3.  For every sequence of N >= 1 added aggregates [print] emits
    exactly N separator lines of 80 characters, one immediately after the
    two rows of each aggregate: the report is the banner, the header and,
    for each aggregate in order, its row A, its row B and a line of 80 fill
    characters, where the fill characters are N - 1 dashes followed by one
    hash. *)
Theorem separator_after_each_aggregate (ms : list MultiMeasurement) (os : ostream)
  (Hp : is_printer (added ms)) (Hsome : (1 <= List.length ms)%nat) :
  (exists os' : ostream,
      print (added ms) os = Some os' /\
      text os'
      = text os ++ Spec.unlines (Spec.banner ++ Spec.header) ++
        Spec.unlines
          (flat_map (fun b : str * str * ascii =>
                       [fst (fst b); snd (fst b); repeat (snd b) 80])
             (Spec.blocks ms))) /\
  map fst (Spec.blocks ms) = map (fun m => (Spec.row_A m, Spec.row_B m)) ms /\
  map snd (Spec.blocks ms) = repeat "-"%char (List.length ms - 1) ++ ["#"%char] /\
  List.length (Spec.blocks ms) = List.length ms.
Proof.
  split; [now apply print_added| ].
  split; [apply blocks_rows| ].
  split.
  - apply blocks_fills. destruct ms; [cbn in Hsome; lia | discriminate].
  - rewrite <- (length_map fst), blocks_rows. apply length_map.
Qed.

Lemma separator_after_each_aggregate_witness :
  is_printer (added [Samples.scenario; Samples.two_files; Samples.same_name]) /\
  (1 <= List.length [Samples.scenario; Samples.two_files; Samples.same_name])%nat /\
  map snd (Spec.blocks [Samples.scenario; Samples.two_files; Samples.same_name])
  = ["-"%char; "-"%char; "#"%char].
Proof.
  assert (Hp : is_printer (added [Samples.scenario; Samples.two_files; Samples.same_name]))
    by well_typed_sample.
  assert (Hsome : (1 <= List.length [Samples.scenario; Samples.two_files;
                                     Samples.same_name])%nat)
    by (cbn [List.length]; lia).
  split; [exact Hp| ].
  split; [exact Hsome| ].
  exact (proj1 (proj2 (proj2
           (separator_after_each_aggregate
              [Samples.scenario; Samples.two_files; Samples.same_name]
              fresh Hp Hsome)))).
Defined.

(** ** Idempotence *)

(** C8.  A call of [print] leaves the printer object as it was, and two
    calls in a row on the same sequence append the same text both times:
    the text is the report of the stored aggregates, whatever the fill
    character, the width and the adjustment of the stream were before the
    call. *)
Theorem print_idempotent (w : World) (Hp : is_printer (printer w)) :
  exists (w1 w2 : World) (out : str),
    call_print w = Some w1 /\
    call_print w1 = Some w2 /\
    printer w1 = printer w /\
    printer w2 = printer w /\
    text (cerr w1) = text (cerr w) ++ out /\
    text (cerr w2) = text (cerr w1) ++ out /\
    out = Spec.unlines (Spec.report (measurements_ (printer w))).
Proof.
  destruct (print_report (printer w) (cerr w) Hp) as [os1 [Hrun1 Htext1]].
  destruct (print_report (printer w) os1 Hp) as [os2 [Hrun2 Htext2]].
  exists {| printer := printer w; cerr := os1 |},
         {| printer := printer w; cerr := os2 |},
         (Spec.unlines (Spec.report (measurements_ (printer w)))).
  unfold call_print. cbn [printer cerr].
  rewrite Hrun1, Hrun2. cbn [bind].
  repeat split; assumption.
Qed.

Lemma print_idempotent_witness :
  exists (w1 w2 : World) (out : str),
    call_print (mk_world (added [Samples.scenario; Samples.two_files])
                  (fresh << setw 100 << left)) = Some w1 /\
    call_print w1 = Some w2 /\
    printer w1 = added [Samples.scenario; Samples.two_files] /\
    printer w2 = added [Samples.scenario; Samples.two_files] /\
    text (cerr w1) = [] ++ out /\
    text (cerr w2) = text (cerr w1) ++ out /\
    out = Spec.unlines (Spec.report [Samples.scenario; Samples.two_files]).
Proof.
  apply (print_idempotent
           (mk_world (added [Samples.scenario; Samples.two_files])
              (fresh << setw 100 << left))).
  well_typed_sample.
Defined.

(** ** The file field of row B *)

Lemma eqb_true_iff (a b : str) : StdString.eqb a b = true <-> a = b.
Proof.
  unfold StdString.eqb. destruct (list_eq_dec ascii_dec a b); split; congruence.
Qed.

(** C4.  The file field of row B is left empty exactly when the base name
    of the end file, after path shortening, equals the base name of the
    start file shown on row A, even if the full paths differ; when the two
    base names differ, row B shows the base name of the end file.  With
    the base names that [crop_path] returns: row A starts with the base
    name of the start file in its 30 columns; when the two base names are
    equal row B starts with 30 spaces, and when they differ row B starts
    with the base name of the end file in its 30 columns; the rest of
    row B is the same in both cases.  The test of the code,
    [file_start == file_end], holds exactly when the base names are equal.
    For src/a.cpp and test\a.cpp the field is left empty; for src/a.cpp
    and src/b.cpp row B shows b.cpp; for a.cpp and src/ the base names
    differ and row B shows the base name of src/, which is the empty
    text. *)
Theorem row_B_file_field (m : MultiMeasurement) (os : ostream)
  (Hm : is_measurement m) :
  (exists (base_start base_end : str) (os' : ostream),
      crop_path (get_file (get_start m)) = Some base_start /\
      crop_path (get_file (get_end m)) = Some base_end /\
      print_measurement m os = Some os' /\
      let rest_A :=
        lit "|" ++ Spec.rjust 6 (dec (get_line (get_start m))) ++ lit "|" ++
        repeat " "%char 10 ++ lit "|" ++ repeat " "%char 15 ++ lit "|" in
      let rest_B :=
        lit "|" ++ Spec.rjust 6 (dec (get_line (get_end m))) ++ lit "|" ++
        Spec.rjust 10 (dec (count m)) ++ lit "|" ++
        Spec.rjust 15 (Spec.thousands (dec (get_average_duration m))) ++ lit "|" ++
        Spec.rjust 15 (Spec.thousands (dec (get_overall_duration m))) in
      (StdString.eqb base_start base_end = true <-> base_start = base_end) /\
      (base_start = base_end ->
       text os'
       = text os ++ (Spec.ljust 30 base_start ++ rest_A) ++ [nl] ++
         (repeat " "%char 30 ++ rest_B) ++ [nl]) /\
      (base_start <> base_end ->
       text os'
       = text os ++ (Spec.ljust 30 base_start ++ rest_A) ++ [nl] ++
         (Spec.ljust 30 base_end ++ rest_B) ++ [nl])) /\
  Reading.printed_rows Samples.same_name
  = [lit "a.cpp                         |    10|          |               |";
     lit "                              |    20|         2|          1,500|          3,000"] /\
  Reading.printed_rows Samples.two_files
  = [lit "a.cpp                         |    10|          |               |";
     lit "b.cpp                         |     7|        12|            250|          3,000"] /\
  crop_path (get_file (get_end Samples.ends_in_separator)) = Some [] /\
  Reading.printed_rows Samples.ends_in_separator
  = [lit "a.cpp                         |    10|          |               |";
     lit "                              |    20|         2|          1,500|          3,000"].
Proof.
  split; [ | repeat split; vm_compute; reflexivity].
  pose proof Hm as [Hs [He _]].
  exists (Spec.basename (get_file (get_start m))),
         (Spec.basename (get_file (get_end m))).
  eexists.
  split; [now apply crop_path_basename| ].
  split; [now apply crop_path_basename| ].
  split; [now apply print_measurement_rows| ].
  cbv zeta. cbn [text].
  split; [apply eqb_true_iff| ].
  unfold Spec.row_A, Spec.row_B, Spec.file_B.
  split; intro H.
  - rewrite (proj2 (eqb_true_iff _ _) H).
    change (Spec.ljust 30 []) with (repeat " "%char 30).
    rewrite <- !app_assoc. reflexivity.
  - destruct (StdString.eqb (Spec.basename (get_file (get_start m)))
                (Spec.basename (get_file (get_end m)))) eqn:E.
    + apply eqb_true_iff in E. now elim H.
    + rewrite <- !app_assoc. reflexivity.
Qed.

Lemma row_B_file_field_witness :
  is_measurement Samples.same_name /\
  get_file (get_start Samples.same_name) <> get_file (get_end Samples.same_name) /\
  exists os' : ostream,
    print_measurement Samples.same_name fresh = Some os' /\
    Reading.lines (text os')
    = [lit "a.cpp                         |    10|          |               |";
       lit "                              |    20|         2|          1,500|          3,000"].
Proof.
  assert (Hm : is_measurement Samples.same_name) by well_typed_sample.
  split; [exact Hm| ].
  split; [vm_compute; discriminate| ].
  destruct (proj1 (row_B_file_field Samples.same_name fresh Hm))
    as [base_start [base_end [os' [Hstart [Hend [Hrun [_ [Hsame _]]]]]]]].
  exists os'. split; [exact Hrun| ].
  assert (Hs : base_start = lit "a.cpp")
    by (assert (E : crop_path (get_file (get_start Samples.same_name))
                    = Some (lit "a.cpp")) by (vm_compute; reflexivity);
        rewrite E in Hstart; now injection Hstart).
  assert (He : base_end = lit "a.cpp")
    by (assert (E : crop_path (get_file (get_end Samples.same_name))
                    = Some (lit "a.cpp")) by (vm_compute; reflexivity);
        rewrite E in Hend; now injection Hend).
  rewrite Hsame by congruence.
  subst base_start. vm_compute. reflexivity.
Defined.

(** ** Column widths *)

(** C10, as stated, fails for a cropped file name of exactly 30
    characters: it fills the file column, the bar after it stays in column
    30 and no row is wider than 80 characters. *)
Lemma name_of_thirty_characters_shifts_nothing :
  option_map (@List.length ascii) (crop_path (get_file (get_start Samples.thirty)))
  = Some 30%nat /\
  Reading.printed_rows Samples.thirty
  = [lit "abcdefghijklmnopqrstuvwxyz.cpp|    10|          |               |";
     lit "abcdefghijklmnopqrstuvwxyz.hpp|    20|         2|          1,500|          3,000"] /\
  ~ (exists row : str,
        In row (Reading.printed_rows Samples.thirty) /\
        ((30 < Reading.bar_index row)%nat \/ (80 < List.length row)%nat)).
Proof.
  split; [vm_compute; reflexivity| ].
  assert (Hrows :
    Reading.printed_rows Samples.thirty
    = [lit "abcdefghijklmnopqrstuvwxyz.cpp|    10|          |               |";
       lit "abcdefghijklmnopqrstuvwxyz.hpp|    20|         2|          1,500|          3,000"])
    by (vm_compute; reflexivity).
  split; [exact Hrows| ].
  rewrite Hrows. intros [row [Hin Hwide]].
  destruct Hin as [<- | [<- | []]].
  - assert (Hbar : Reading.bar_index
               (lit "abcdefghijklmnopqrstuvwxyz.cpp|    10|          |               |")
             = 30%nat) by (vm_compute; reflexivity).
    assert (Hlen : List.length
               (lit "abcdefghijklmnopqrstuvwxyz.cpp|    10|          |               |")
             = 65%nat) by (vm_compute; reflexivity).
    rewrite Hbar, Hlen in Hwide. lia.
  - assert (Hbar : Reading.bar_index
               (lit "abcdefghijklmnopqrstuvwxyz.hpp|    20|         2|          1,500|          3,000")
             = 30%nat) by (vm_compute; reflexivity).
    assert (Hlen : List.length
               (lit "abcdefghijklmnopqrstuvwxyz.hpp|    20|         2|          1,500|          3,000")
             = 80%nat) by (vm_compute; reflexivity).
    rewrite Hbar, Hlen in Hwide. lia.
Qed.

Lemma ljust_length (w : nat) (t : str) :
  List.length (Spec.ljust w t) = Nat.max w (List.length t).
Proof. unfold Spec.ljust. rewrite length_app, repeat_length. lia. Qed.

Lemma rjust_length (w : nat) (t : str) :
  List.length (Spec.rjust w t) = Nat.max w (List.length t).
Proof. unfold Spec.rjust. rewrite length_app, repeat_length. lia. Qed.

Lemma firstn_prefix {A : Type} (a b : list A) : firstn (List.length a) (a ++ b) = a.
Proof. induction a as [ |x a IH]; [reflexivity| ]. cbn. now rewrite IH. Qed.

Lemma nth_error_middle {A : Type} (a : list A) (x : A) (b : list A) :
  nth_error (a ++ x :: b) (List.length a) = Some x.
Proof. induction a as [ |y a IH]; [reflexivity | exact IH]. Qed.

Lemma ljust_bar (w : nat) (t rest : str) :
  firstn (List.length t) (Spec.ljust w t ++ lit "|" ++ rest) = t /\
  nth_error (Spec.ljust w t ++ lit "|" ++ rest) (Nat.max w (List.length t))
  = Some "|"%char.
Proof.
  split.
  - unfold Spec.ljust. rewrite <- app_assoc. apply firstn_prefix.
  - rewrite <- ljust_length. apply nth_error_middle.
Qed.

(** C10, amended.  The column widths are minimum widths and no field value
    is truncated.  The rows hold every value in full: the file field is the
    file name followed by the spaces that are missing to 30 columns, none
    when the name has 30 characters or more, and the bar after it is in
    column max(30, length of the name), so it shifts right by what the
    name has beyond 30 characters; a right-aligned field is the spaces that
    are missing to its width followed by the value.  Row A is 65 characters
    long and row B 80, plus the characters that the values have beyond
    their columns; a value of exactly the width of its column adds
    nothing. *)
Theorem fields_are_never_truncated (m : MultiMeasurement) (os : ostream)
  (Hm : is_measurement m) :
  let excess (t : str) (w : nat) := (List.length t - w)%nat in
  let file_A := Spec.basename (get_file (get_start m)) in
  let line_A := dec (get_line (get_start m)) in
  let file_B := Spec.file_B m in
  let line_B := dec (get_line (get_end m)) in
  let samples := dec (count m) in
  let average := Spec.thousands (dec (get_average_duration m)) in
  let overall := Spec.thousands (dec (get_overall_duration m)) in
  let row_A :=
    (file_A ++ repeat " "%char (30 - List.length file_A)) ++ lit "|" ++
    (repeat " "%char (6 - List.length line_A) ++ line_A) ++ lit "|" ++
    repeat " "%char 10 ++ lit "|" ++ repeat " "%char 15 ++ lit "|" in
  let row_B :=
    (file_B ++ repeat " "%char (30 - List.length file_B)) ++ lit "|" ++
    (repeat " "%char (6 - List.length line_B) ++ line_B) ++ lit "|" ++
    (repeat " "%char (10 - List.length samples) ++ samples) ++ lit "|" ++
    (repeat " "%char (15 - List.length average) ++ average) ++ lit "|" ++
    (repeat " "%char (15 - List.length overall) ++ overall) in
  (exists os' : ostream,
      print_measurement m os = Some os' /\
      text os' = text os ++ row_A ++ [nl] ++ row_B ++ [nl]) /\
  crop_path (get_file (get_start m)) = Some file_A /\
  insert_separators (get_average_duration m) = Some average /\
  insert_separators (get_overall_duration m) = Some overall /\
  nth_error row_A (Nat.max 30 (List.length file_A)) = Some "|"%char /\
  nth_error row_B (Nat.max 30 (List.length file_B)) = Some "|"%char /\
  List.length row_A = (65 + excess file_A 30 + excess line_A 6)%nat /\
  List.length row_B
  = (80 + excess file_B 30 + excess line_B 6 + excess samples 10
     + excess average 15 + excess overall 15)%nat /\
  ((30 < List.length file_A)%nat -> (65 < List.length row_A)%nat) /\
  Reading.printed_rows Samples.wide
  = [lit "abcdefghijklmnopqrstuvwxyz0123.cpp|1234567|          |               |";
     lit "b.cpp                         |    20|12345678901|1,234,567,890,123|1,234,567,890,123,456"].
Proof.
  cbv zeta.
  pose proof Hm as [Hs [He [Ha Ho]]].
  split.
  { eexists. split; [now apply print_measurement_rows| ]. reflexivity. }
  split; [now apply crop_path_basename| ].
  split; [now apply insert_separators_thousands| ].
  split; [now apply insert_separators_thousands| ].
  split; [apply (ljust_bar 30)| ].
  split; [apply (ljust_bar 30)| ].
  assert (Hbar : List.length (lit "|") = 1%nat) by reflexivity.
  split; [ | split; [ | split]].
  - rewrite !length_app, !repeat_length, !Hbar. lia.
  - rewrite !length_app, !repeat_length, !Hbar. lia.
  - intro Hwide. rewrite !length_app, !repeat_length, !Hbar. lia.
  - vm_compute. reflexivity.
Qed.

Lemma fields_are_never_truncated_witness :
  is_measurement Samples.wide /\
  (30 < List.length (Spec.basename (get_file (get_start Samples.wide))))%nat /\
  exists os' : ostream,
    print_measurement Samples.wide fresh = Some os' /\
    Reading.lines (text os')
    = [lit "abcdefghijklmnopqrstuvwxyz0123.cpp|1234567|          |               |";
       lit "b.cpp                         |    20|12345678901|1,234,567,890,123|1,234,567,890,123,456"].
Proof.
  assert (Hm : is_measurement Samples.wide) by well_typed_sample.
  split; [exact Hm| ].
  split; [vm_compute; lia| ].
  destruct (proj1 (fields_are_never_truncated Samples.wide fresh Hm))
    as [os' [Hrun Htext]].
  exists os'. split; [exact Hrun| ].
  rewrite Htext. vm_compute. reflexivity.
Defined.

(** * Further properties of the printer *)

(** ** The length of a formatted number *)

Lemma scan_commas_length (t : str) :
  List.length (Spec.scan_commas t)
  = (List.length t + (List.length t - 1) / 3)%nat.
Proof.
  induction t as [ |c rest IH]; [reflexivity| ].
  cbn [Spec.scan_commas].
  destruct (Nat.leb_spec 3 (List.length rest)) as [H3|H3];
    destruct (Nat.eqb_spec (List.length rest mod 3) 0) as [Hm|Hm];
    cbn [andb List.length]; rewrite IH.
  all: pose proof (Nat.div_mod_eq (List.length rest) 3) as Hd.
  all: pose proof (Nat.div_mod_eq (List.length rest - 1) 3) as Hd'.
  all: pose proof (Nat.mod_upper_bound (List.length rest) 3) as Hu.
  all: pose proof (Nat.mod_upper_bound (List.length rest - 1) 3) as Hu'.
  all: replace (S (List.length rest) - 1)%nat with (List.length rest) by lia.
  all: lia.
Qed.

(** ** The number of digits *)

Lemma of_uint_acc_upper (d : Decimal.uint) :
  forall acc : positive,
    Z.pos (Pos.of_uint_acc d acc) < (Z.pos acc + 1) * 10 ^ Z.of_nat (Decimal.nb_digits d).
Proof.
  induction d; intro acc; cbn [Pos.of_uint_acc Decimal.nb_digits];
    try (rewrite Nat2Z.inj_succ, Z.pow_succ_r by lia;
         eapply Z.lt_le_trans; [apply IHd| ];
         assert (0 <= 10 ^ Z.of_nat (Decimal.nb_digits d)) by (apply Z.pow_nonneg; lia);
         nia).
  change (10 ^ Z.of_nat 0) with 1. lia.
Qed.

(** A decimal number is below 10^(number of its digits). *)
Lemma of_uint_upper (d : Decimal.uint) :
  Z.of_N (Pos.of_uint d) < 10 ^ Z.of_nat (Decimal.nb_digits d).
Proof.
  induction d; cbn [Pos.of_uint Decimal.nb_digits Z.of_N];
    try (rewrite Nat2Z.inj_succ, Z.pow_succ_r by lia;
         eapply Z.lt_le_trans; [apply of_uint_acc_upper| ];
         assert (0 <= 10 ^ Z.of_nat (Decimal.nb_digits d)) by (apply Z.pow_nonneg; lia);
         nia).
  - reflexivity.
  - rewrite Nat2Z.inj_succ, Z.pow_succ_r by lia.
    assert (0 <= Z.of_N (Pos.of_uint d)) by lia. lia.
Qed.

(** The digits of a positive number: it has [k] of them exactly when it
    lies between 10^(k-1) and 10^k. *)
Lemma digits_of_positive_bounds (p : positive) :
  let k := Z.of_nat (List.length (dec (Z.pos p))) in
  10 ^ (k - 1) <= Z.pos p < 10 ^ k.
Proof.
  cbv zeta. unfold dec, sign_and_digits. cbn [Z.to_int fst snd app].
  rewrite digits_of_positive, length_string_of_uint.
  split; [apply nb_digits_to_uint| ].
  change (Z.pos p) with (Z.of_N (N.pos p)).
  rewrite <- (Unsigned.of_to p) at 1. apply of_uint_upper.
Qed.

(** A non-negative number has at most [k] digits exactly when it is below
    10^k. *)
Lemma dec_length_le (n : Z) (k : nat) :
  0 <= n -> (1 <= k)%nat ->
  ((List.length (dec n) <= k)%nat <-> n < 10 ^ Z.of_nat k).
Proof.
  intros Hn Hk.
  destruct n as [ |p|p]; try lia.
  - change (List.length (dec 0)) with 1%nat.
    split; [intros _ | intros _; exact Hk].
    apply Z.pow_pos_nonneg; lia.
  - pose proof (digits_of_positive_bounds p) as [Hlo Hhi]. cbv zeta in Hlo, Hhi.
    split; intro H.
    + eapply Z.lt_le_trans; [exact Hhi| ].
      apply Z.pow_le_mono_r; lia.
    + destruct (Nat.le_gt_cases (List.length (dec (Z.pos p))) k) as [Hle|Hgt];
        [exact Hle | exfalso].
      assert (10 ^ Z.of_nat k <= 10 ^ (Z.of_nat (List.length (dec (Z.pos p))) - 1))
        by (apply Z.pow_le_mono_r; lia).
      lia.
Qed.

(** X7.  For every [long int], [insert_separators] returns a text of
    d + (d - 1) / 3 characters, where d is the number of characters of the
    decimal text of the number, sign included; so it never returns more
    than 26 characters. *)
Theorem insert_separators_length (n : Z) (Hlong : is_long n) :
  exists out : str,
    insert_separators n = Some out /\
    List.length out
    = (List.length (dec n) + (List.length (dec n) - 1) / 3)%nat /\
    (List.length out <= 26)%nat.
Proof.
  exists (Spec.thousands (dec n)).
  split; [now apply insert_separators_thousands| ].
  rewrite <- scan_commas_thousands, scan_commas_length.
  split; [reflexivity| ].
  pose proof (length_dec_long n Hlong) as Hlen.
  pose proof (Nat.div_mod_eq (List.length (dec n) - 1) 3) as Hd.
  pose proof (Nat.mod_upper_bound (List.length (dec n) - 1) 3) as Hu.
  lia.
Qed.

Lemma insert_separators_length_witness :
  is_long LONG_MIN /\
  exists out : str,
    insert_separators LONG_MIN = Some out /\
    List.length out
    = (List.length (dec LONG_MIN) + (List.length (dec LONG_MIN) - 1) / 3)%nat /\
    (List.length out <= 26)%nat.
Proof.
  assert (Hlong : is_long LONG_MIN) by (split; vm_compute; discriminate).
  split; [exact Hlong| ].
  exact (insert_separators_length LONG_MIN Hlong).
Defined.

(** X8.  A non-negative duration fits the 15 characters of the Average and
    Overall columns exactly when it is below 10^12 microseconds: from
    10^12 on, [insert_separators] returns at least 17 characters. *)
Theorem duration_fits_column (n : Z) (Hnonneg : 0 <= n) (Hlong : n <= LONG_MAX) :
  exists out : str,
    insert_separators n = Some out /\
    ((Z.of_nat (List.length out) <= avg_duration_col_width) <-> n < 10 ^ 12) /\
    (10 ^ 12 <= n -> (17 <= List.length out)%nat).
Proof.
  assert (Hl : is_long n) by (unfold is_long, LONG_MIN, LONG_MAX in *; lia).
  exists (Spec.thousands (dec n)).
  split; [now apply insert_separators_thousands| ].
  rewrite <- scan_commas_thousands, scan_commas_length.
  pose proof (dec_length_le n 12 Hnonneg) as Hiff.
  change (Z.of_nat 12) with 12 in Hiff.
  pose proof (Nat.div_mod_eq (List.length (dec n) - 1) 3) as Hd.
  pose proof (Nat.mod_upper_bound (List.length (dec n) - 1) 3) as Hu.
  unfold avg_duration_col_width.
  split; [split| ]; intro H.
  - apply Hiff; lia.
  - assert (List.length (dec n) <= 12)%nat by (apply Hiff; lia). lia.
  - assert (~ (List.length (dec n) <= 12)%nat) by (intro Hle; apply Hiff in Hle; lia).
    lia.
Qed.

Lemma duration_fits_column_witness :
  0 <= 999999999999 /\ 999999999999 <= LONG_MAX /\
  exists out : str,
    insert_separators 999999999999 = Some out /\
    ((Z.of_nat (List.length out) <= avg_duration_col_width) <-> 999999999999 < 10 ^ 12) /\
    (10 ^ 12 <= 999999999999 -> (17 <= List.length out)%nat).
Proof.
  assert (Hnonneg : 0 <= 999999999999) by lia.
  assert (Hlong : 999999999999 <= LONG_MAX) by (vm_compute; discriminate).
  split; [exact Hnonneg| ].
  split; [exact Hlong| ].
  exact (duration_fits_column 999999999999 Hnonneg Hlong).
Defined.

(** ** Reading a formatted number back *)

Lemma without_commas_plain (t : str) :
  forallb (fun c => negb (Ascii.eqb c ","%char)) t = true -> without_commas t = t.
Proof.
  unfold without_commas.
  induction t as [ |x t IH]; [reflexivity| ].
  cbn [forallb filter]. intro H. apply andb_prop in H. destruct H as [Hx Ht].
  now rewrite Hx, IH.
Qed.

(** Taking the commas out of a grouped text that had none gives the text
    back. *)
Lemma group_without_commas_plain (n : nat) :
  forall r : str,
    (List.length r <= n)%nat ->
    forallb (fun c => negb (Ascii.eqb c ","%char)) r = true ->
    without_commas (Spec.group_from_lsd r) = r.
Proof.
  induction n as [ |n IH]; intros r Hlen Hplain.
  - destruct r; [reflexivity | cbn in Hlen; lia].
  - destruct r as [ |x [ |y [ |z [ |w more]]]]; try (now apply without_commas_plain).
    assert (Hstep : Spec.group_from_lsd (x :: y :: z :: w :: more)
                    = x :: y :: z :: ","%char :: Spec.group_from_lsd (w :: more))
      by reflexivity.
    rewrite Hstep.
    cbn [forallb] in Hplain.
    apply andb_prop in Hplain. destruct Hplain as [Hx Hplain].
    apply andb_prop in Hplain. destruct Hplain as [Hy Hplain].
    apply andb_prop in Hplain. destruct Hplain as [Hz Hplain].
    unfold without_commas in *. cbn [filter].
    rewrite Hx, Hy, Hz.
    change (negb (Ascii.eqb ","%char ","%char)) with false. cbn iota.
    rewrite (IH (w :: more)); [reflexivity | cbn [List.length] in *; lia | exact Hplain].
Qed.

Lemma thousands_without_commas_plain (t : str) :
  forallb (fun c => negb (Ascii.eqb c ","%char)) t = true ->
  without_commas (Spec.thousands t) = t.
Proof.
  intro Ht. unfold Spec.thousands.
  unfold without_commas. rewrite filter_rev_commute.
  fold (without_commas (Spec.group_from_lsd (rev t))).
  rewrite (group_without_commas_plain (List.length (rev t))); [ | lia | now apply forallb_rev].
  apply rev_involutive.
Qed.

(** The text of a number has no comma. *)
Lemma dec_plain (n : Z) :
  forallb (fun c => negb (Ascii.eqb c ","%char)) (dec n) = true.
Proof.
  assert (Hdigits : forall t : str,
             forallb Spec.is_digit t = true ->
             forallb (fun c => negb (Ascii.eqb c ","%char)) t = true).
  { induction t as [ |x t IH]; [reflexivity| ].
    cbn [forallb]. intro H. apply andb_prop in H. destruct H as [Hx Ht].
    now rewrite (keep_digit x Hx), IH. }
  destruct (Z.lt_ge_cases n 0) as [Hneg|Hpos].
  - rewrite (dec_negative n Hneg). cbn [forallb].
    rewrite Hdigits; [reflexivity | apply dec_digits; lia].
  - apply Hdigits, dec_digits. lia.
Qed.

(** X6.  For every [long int], negative ones included, taking the commas
    out of what [insert_separators] returns gives the decimal text of the
    number, and reading that text gives the number back; so two different
    numbers are never formatted alike. *)
Theorem insert_separators_round_trip (n : Z) (Hlong : is_long n) :
  exists out : str,
    insert_separators n = Some out /\
    without_commas out = dec n /\
    option_map Z.of_int
      (NilZero.int_of_string (string_of_list_ascii (without_commas out)))
    = Some n /\
    (forall m : Z,
        is_long m -> insert_separators m = insert_separators n -> m = n).
Proof.
  assert (Hback : forall k : Z,
             without_commas (Spec.thousands (dec k)) = dec k)
    by (intro k; apply thousands_without_commas_plain, dec_plain).
  exists (Spec.thousands (dec n)).
  split; [now apply insert_separators_thousands| ].
  split; [apply Hback| ].
  split; [rewrite Hback; apply dec_read_back| ].
  intros m Hm Heq.
  rewrite (insert_separators_thousands n Hlong),
          (insert_separators_thousands m Hm) in Heq.
  injection Heq as Heq.
  apply (f_equal without_commas) in Heq. rewrite !Hback in Heq.
  pose proof (dec_read_back m) as Rm. pose proof (dec_read_back n) as Rn.
  rewrite Heq in Rm. congruence.
Qed.

Lemma insert_separators_round_trip_witness :
  is_long (-1234567) /\
  exists out : str,
    insert_separators (-1234567) = Some out /\
    without_commas out = dec (-1234567) /\
    option_map Z.of_int
      (NilZero.int_of_string (string_of_list_ascii (without_commas out)))
    = Some (-1234567) /\
    (forall m : Z,
        is_long m -> insert_separators m = insert_separators (-1234567) ->
        m = -1234567).
Proof.
  assert (Hlong : is_long (-1234567)) by (split; vm_compute; discriminate).
  split; [exact Hlong| ].
  exact (insert_separators_round_trip (-1234567) Hlong).
Defined.

(** ** More on path shortening *)

Lemma basename_clean (s : str) : existsb Spec.is_separator (Spec.basename s) = false.
Proof.
  destruct (basename_split s) as [[Hnone Hsame] | [pre [c [_ [_ Hbase]]]]].
  - now rewrite Hsame.
  - exact Hbase.
Qed.

Lemma basename_suffix (s : str) : exists pre : str, s = pre ++ Spec.basename s.
Proof.
  destruct (basename_split s) as [[_ Hsame] | [pre [c [Hsplit _]]]].
  - exists []. now rewrite Hsame.
  - exists (pre ++ [c]). now rewrite <- app_assoc.
Qed.

(** X4.  [crop_path] is idempotent: what it returns is an ending of the
    input that has no slash and no backslash, and cropping it again
    changes nothing. *)
Theorem crop_path_idempotent (file_name : str) (Hstring : is_string file_name) :
  exists base : str,
    crop_path file_name = Some base /\
    crop_path base = Some base /\
    (exists pre : str, file_name = pre ++ base) /\
    (forall c : ascii, In c base -> c <> "/"%char /\ c <> "\"%char).
Proof.
  exists (Spec.basename file_name).
  pose proof (basename_suffix file_name) as [pre Hpre].
  pose proof (basename_clean file_name) as Hclean.
  split; [now apply crop_path_basename| ].
  split; [ | split].
  - rewrite crop_path_basename.
    + now rewrite (basename_no_separator _ Hclean).
    + unfold is_string, StdString.size in *.
      rewrite Hpre, length_app in Hstring. lia.
  - now exists pre.
  - intros c Hin.
    assert (Hc : Spec.is_separator c = false).
    { destruct (Spec.is_separator c) eqn:E; [ | reflexivity].
      rewrite <- Hclean. symmetry. apply existsb_exists. now exists c. }
    unfold Spec.is_separator in Hc. apply orb_false_elim in Hc.
    destruct Hc as [H1 H2]. apply Ascii.eqb_neq in H1, H2. now split.
Qed.

Lemma crop_path_idempotent_witness :
  is_string (lit "src\speedo/printer.h") /\
  exists base : str,
    crop_path (lit "src\speedo/printer.h") = Some base /\
    crop_path base = Some base /\
    (exists pre : str, lit "src\speedo/printer.h" = pre ++ base) /\
    (forall c : ascii, In c base -> c <> "/"%char /\ c <> "\"%char).
Proof.
  assert (Hstring : is_string (lit "src\speedo/printer.h"))
    by (vm_compute; reflexivity).
  split; [exact Hstring| ].
  exact (crop_path_idempotent (lit "src\speedo/printer.h") Hstring).
Defined.

(** X5.  Cropping a directory, a separator and a name that has no
    separator gives the name back, whichever of the two separators joins
    them and whatever separators the directory holds; in particular a path
    that ends in a separator is cropped to the empty string. *)
Theorem crop_path_of_joined_path (dir name : str) (sep : ascii)
  (Hsep : sep = "/"%char \/ sep = "\"%char)
  (Hname : existsb Spec.is_separator name = false)
  (Hstring : is_string (dir ++ sep :: name)) :
  crop_path (dir ++ sep :: name) = Some name /\
  (name = [] -> crop_path (dir ++ [sep]) = Some []).
Proof.
  assert (Hc : Spec.is_separator sep = true)
    by (destruct Hsep as [-> | ->]; reflexivity).
  split.
  - rewrite (crop_path_basename _ Hstring).
    now rewrite basename_after_last.
  - intros ->. rewrite (crop_path_basename _ Hstring).
    now rewrite basename_after_last.
Qed.

Lemma crop_path_of_joined_path_witness :
  crop_path (lit "C:\work/speedo" ++ "\"%char :: lit "printer.h")
  = Some (lit "printer.h").
Proof.
  refine (proj1 (crop_path_of_joined_path
                   (lit "C:\work/speedo") (lit "printer.h") "\"%char _ _ _)).
  - right. reflexivity.
  - reflexivity.
  - vm_compute. reflexivity.
Defined.

(** ** The stream after a report *)

Section LoopState.

Variable ms : list MultiMeasurement.
Hypothesis count_fits : Z.of_nat (List.length ms) <= INT_MAX.
Hypothesis well_typed : Forall is_measurement ms.

(** The stream that the loop leaves: the one it was given when nothing was
    left to print, and otherwise a stream filled with hashes, right-adjusted
    and without a pending width. *)
Lemma print_loop_state (rest : nat) :
  forall (k fuel : nat) (os : ostream),
    (k + rest = List.length ms)%nat -> (rest <= fuel)%nat ->
    exists os' : ostream,
      print_loop fuel ms (Z.of_nat k) os = Some os' /\
      (rest = 0%nat -> os' = os) /\
      ((1 <= rest)%nat ->
       fill os' = "#"%char /\ width os' = 0 /\ adjust os' = adjust_right).
Proof using count_fits well_typed.
  unfold INT_MAX in count_fits.
  induction rest as [ |r IH]; intros k fuel os Hk Hfuel.
  - exists os.
    assert (Hguard : (to_size_t (Z.of_nat k) <? Z.of_nat (List.length ms)) = false).
    { rewrite to_size_t_id by (unfold size_t_modulus; lia). apply Z.ltb_ge. lia. }
    split; [destruct fuel; cbn [print_loop]; now rewrite Hguard| ].
    split; [reflexivity | lia].
  - destruct fuel as [ |fuel]; [lia| ].
    cbn [print_loop].
    rewrite (to_size_t_id (Z.of_nat k)) by (unfold size_t_modulus; lia).
    rewrite (to_size_t_id (Z.of_nat (List.length ms) - 1))
      by (unfold size_t_modulus; lia).
    replace (Z.of_nat k <? Z.of_nat (List.length ms)) with true
      by (symmetry; apply Z.ltb_lt; lia).
    destruct (nth_error_skipn ms k) as [m [Hm _]]; [lia| ].
    rewrite Nat2Z.id, Hm. cbn [bind].
    assert (Hwt : is_measurement m).
    { apply (proj1 (Forall_forall is_measurement ms) well_typed).
      eapply nth_error_In. exact Hm. }
    rewrite (print_measurement_rows m os Hwt). cbn [bind].
    rewrite print_hline_line. cbn [text adjust].
    rewrite to_int_id by (unfold INT_MAX; lia).
    replace (Z.of_nat k + 1) with (Z.of_nat (S k)) by lia.
    edestruct (IH (S k) fuel) as [os' [Hrun [Hnone Hsome]]]; [lia | lia | ].
    exists os'. split; [exact Hrun| ].
    split; [lia| ]. intros _.
    destruct r as [ |r].
    + rewrite (Hnone eq_refl). cbn [fill width adjust].
      replace (Z.of_nat k <? Z.of_nat (List.length ms) - 1) with false
        by (symmetry; apply Z.ltb_ge; lia).
      repeat split.
    + apply Hsome. lia.
Qed.

End LoopState.

(** X3.  [print] does not restore the formatting of the stream: whatever
    it was before, the stream is afterwards right-adjusted, has no pending
    width, and its fill character is the hash when there are aggregates and
    the equal sign when there are none.  So a number that the caller
    inserts next with a width is padded with that character rather than
    with spaces. *)
Theorem print_leaves_fill_character (p : Printer) (os : ostream)
  (Hp : is_printer p) :
  exists os' : ostream,
    print p os = Some os' /\
    adjust os' = adjust_right /\
    width os' = 0 /\
    fill os' = match measurements_ p with [] => "="%char | _ :: _ => "#"%char end /\
    text (os' << setw 5 << put_int 42)
    = text os' ++
      match measurements_ p with [] => lit "===42" | _ :: _ => lit "###42" end.
Proof.
  destruct Hp as [Hcount Hwt]. unfold print.
  destruct (print_loop_state (measurements_ p) Hcount Hwt
              (List.length (measurements_ p)) 0 (List.length (measurements_ p))
              (print_header (print_title os)))
    as [os' [Hrun [Hnone Hsome]]]; [lia | lia | ].
  exists os'. split; [exact Hrun| ].
  destruct (measurements_ p) as [ |m l] eqn:Hms.
  - rewrite (Hnone eq_refl), print_header_lines. cbn [adjust width fill].
    repeat split.
  - destruct Hsome as [Hfill [Hwidth Hadjust]]; [cbn [List.length]; lia| ].
    destruct os' as [txt f w a]. cbn [fill width adjust] in *. subst f w a.
    repeat split.
Qed.

Lemma print_leaves_fill_character_witness :
  is_printer (added [Samples.scenario]) /\
  exists os' : ostream,
    print (added [Samples.scenario]) fresh = Some os' /\
    adjust os' = adjust_right /\
    width os' = 0 /\
    fill os' = "#"%char /\
    text (os' << setw 5 << put_int 42) = text os' ++ lit "###42".
Proof.
  assert (Hp : is_printer (added [Samples.scenario])) by well_typed_sample.
  split; [exact Hp| ].
  exact (print_leaves_fill_character (added [Samples.scenario]) fresh Hp).
Defined.

(** ** Adding an aggregate to a report *)

Lemma report_body_cons (x : MultiMeasurement) (l : list MultiMeasurement) :
  Spec.unlines (flat_map Spec.block_rows (Spec.blocks (x :: l)))
  = Spec.row_A x ++ [nl] ++ Spec.row_B x ++ [nl] ++
    Spec.hline (match l with [] => "#"%char | _ :: _ => "-"%char end) ++ [nl] ++
    Spec.unlines (flat_map Spec.block_rows (Spec.blocks l)).
Proof.
  rewrite blocks_cons. cbn [flat_map].
  rewrite unlines_app, unlines_block, <- !app_assoc. reflexivity.
Qed.

Lemma report_body_snoc (m : MultiMeasurement) (ms : list MultiMeasurement) :
  ms <> [] ->
  exists body : str,
    Spec.unlines (flat_map Spec.block_rows (Spec.blocks ms))
    = body ++ Spec.hline "#"%char ++ [nl] /\
    Spec.unlines (flat_map Spec.block_rows (Spec.blocks (ms ++ [m])))
    = body ++ Spec.hline "-"%char ++ [nl] ++
      Spec.row_A m ++ [nl] ++ Spec.row_B m ++ [nl] ++ Spec.hline "#"%char ++ [nl].
Proof.
  induction ms as [ |x l IH]; intro Hne; [now elim Hne| ].
  change ((x :: l) ++ [m]) with (x :: (l ++ [m])).
  rewrite !report_body_cons.
  destruct l as [ |y l].
  - exists (Spec.row_A x ++ [nl] ++ Spec.row_B x ++ [nl]).
    change ([] ++ [m]) with [m]. rewrite report_body_cons.
    change (Spec.unlines (flat_map Spec.block_rows (Spec.blocks []))) with (@nil ascii).
    rewrite !List.app_nil_r, <- !app_assoc. split; reflexivity.
  - destruct IH as [body [Hold Hnew]]; [discriminate| ].
    exists (Spec.row_A x ++ [nl] ++ Spec.row_B x ++ [nl] ++
            Spec.hline "-"%char ++ [nl] ++ body).
    rewrite Hold, Hnew.
    change ((y :: l) ++ [m]) with (y :: (l ++ [m])).
    rewrite <- !app_assoc. split; reflexivity.
Qed.

Lemma is_printer_before_add (m : MultiMeasurement) (p : Printer) :
  is_printer (add m p) -> is_printer p.
Proof.
  unfold is_printer, add. cbn [measurements_]. intros [Hcount Hwt].
  rewrite length_app in Hcount. cbn [List.length] in Hcount.
  split; [lia| ]. apply Forall_app in Hwt. tauto.
Qed.

(** X1.  Adding an aggregate changes the report at its end only: the
    report of the printer after [add] is the report before it with the
    closing line of hashes turned into a line of dashes and followed by the
    two rows of the new aggregate and a line of hashes; after the first
    [add] the new block simply follows the header. *)
Theorem add_extends_report (m : MultiMeasurement) (p : Printer) (os : ostream)
  (Hp : is_printer (add m p)) :
  let new_block :=
    Spec.row_A m ++ [nl] ++ Spec.row_B m ++ [nl] ++ repeat "#"%char 80 ++ [nl] in
  exists os1 os2 : ostream,
    print p os = Some os1 /\
    print (add m p) os = Some os2 /\
    (measurements_ p = [] -> text os2 = text os1 ++ new_block) /\
    (measurements_ p <> [] ->
     exists head : str,
       text os1 = head ++ repeat "#"%char 80 ++ [nl] /\
       text os2 = head ++ repeat "-"%char 80 ++ [nl] ++ new_block).
Proof.
  cbv zeta.
  pose proof (is_printer_before_add m p Hp) as Hp0.
  destruct (print_report p os Hp0) as [os1 [Hrun1 Htext1]].
  destruct (print_report (add m p) os Hp) as [os2 [Hrun2 Htext2]].
  exists os1, os2. split; [exact Hrun1| ]. split; [exact Hrun2| ].
  rewrite Htext1, Htext2. unfold add. cbn [measurements_].
  unfold Spec.report. rewrite !unlines_app.
  split.
  - intros ->. change ([] ++ [m]) with [m]. rewrite report_body_cons.
    change (Spec.unlines (flat_map Spec.block_rows (Spec.blocks []))) with (@nil ascii).
    rewrite !List.app_nil_r, <- !app_assoc. reflexivity.
  - intro Hne.
    destruct (report_body_snoc m (measurements_ p) Hne) as [body [Hold Hnew]].
    exists (text os ++ Spec.unlines Spec.banner ++ Spec.unlines Spec.header ++ body).
    rewrite Hold, Hnew, <- !app_assoc. split; reflexivity.
Qed.

Lemma add_extends_report_witness :
  is_printer (add Samples.two_files (added [Samples.scenario])) /\
  exists os1 os2 : ostream,
    print (added [Samples.scenario]) fresh = Some os1 /\
    print (add Samples.two_files (added [Samples.scenario])) fresh = Some os2 /\
    exists head : str,
      text os1 = head ++ repeat "#"%char 80 ++ [nl] /\
      text os2
      = head ++ repeat "-"%char 80 ++ [nl] ++
        Spec.row_A Samples.two_files ++ [nl] ++ Spec.row_B Samples.two_files ++ [nl] ++
        repeat "#"%char 80 ++ [nl].
Proof.
  assert (Hp : is_printer (add Samples.two_files (added [Samples.scenario])))
    by well_typed_sample.
  split; [exact Hp| ].
  destruct (add_extends_report Samples.two_files (added [Samples.scenario]) fresh Hp)
    as [os1 [os2 [Hrun1 [Hrun2 [_ Hsome]]]]].
  exists os1, os2. split; [exact Hrun1| ]. split; [exact Hrun2| ].
  apply Hsome. discriminate.
Defined.

(** ** Aligned columns *)

Lemma nth_error_at {A : Type} (pre : list A) (x : A) (post : list A) (k : nat) :
  List.length pre = k -> nth_error (pre ++ x :: post) k = Some x.
Proof. intros <-. apply nth_error_middle. Qed.

Lemma nth_error_past {A : Type} (pre : list A) (x : A) (rest : list A) (j k n : nat) :
  List.length pre = j -> n = (j + S k)%nat ->
  nth_error (pre ++ x :: rest) n = nth_error rest k.
Proof.
  intros <- ->. rewrite nth_error_app2 by lia.
  replace (List.length pre + S k - List.length pre)%nat with (S k) by lia.
  reflexivity.
Qed.

(** Steps over a field of [j] characters and the bar after it; [k] columns
    are left to go. *)
Ltac past_field j k := rewrite (nth_error_past _ _ _ j k) by lia.

Lemma file_B_length (m : MultiMeasurement) :
  (List.length (Spec.basename (get_file (get_end m))) <= 30)%nat ->
  (List.length (Spec.file_B m) <= 30)%nat.
Proof.
  intro H. unfold Spec.file_B.
  destruct (StdString.eqb _ _); [cbn; lia | exact H].
Qed.

Section Fitting.

Variable m : MultiMeasurement.
Hypothesis fits : fits_columns m.

Lemma row_A_fits : List.length (Spec.row_A m) = 65%nat.
Proof using fits.
  destruct fits as [Hs [_ [Hl _]]].
  unfold Spec.row_A.
  rewrite !length_app, ljust_length, rjust_length, !repeat_length.
  change (List.length (lit "|")) with 1%nat. lia.
Qed.

Lemma row_B_fits : List.length (Spec.row_B m) = 80%nat.
Proof using fits.
  destruct fits as [_ [He [_ [Hl [Hc [Ha Ho]]]]]].
  pose proof (file_B_length m He) as Hf.
  unfold Spec.row_B.
  rewrite !length_app, ljust_length, !rjust_length.
  change (List.length (lit "|")) with 1%nat. lia.
Qed.

Lemma row_A_bars :
  Forall (fun k => nth_error (Spec.row_A m) k = Some "|"%char) bar_columns.
Proof using fits.
  destruct fits as [Hs [_ [Hl _]]].
  pose proof (ljust_length 30 (Spec.basename (get_file (get_start m)))) as L1.
  pose proof (rjust_length 6 (dec (get_line (get_start m)))) as L2.
  pose proof (repeat_length " "%char 10) as L3.
  pose proof (repeat_length " "%char 15) as L4.
  unfold bar_columns, Spec.row_A.
  change (lit "|") with ["|"%char]. cbn [app].
  repeat constructor.
  - apply nth_error_at. lia.
  - past_field 30%nat 6%nat. apply nth_error_at. lia.
  - past_field 30%nat 17%nat. past_field 6%nat 10%nat. apply nth_error_at. lia.
  - past_field 30%nat 33%nat. past_field 6%nat 26%nat. past_field 10%nat 15%nat.
    apply nth_error_at. lia.
Qed.

Lemma row_B_bars :
  Forall (fun k => nth_error (Spec.row_B m) k = Some "|"%char) bar_columns.
Proof using fits.
  destruct fits as [_ [He [_ [Hl [Hc [Ha _]]]]]].
  pose proof (file_B_length m He) as Hf.
  pose proof (ljust_length 30 (Spec.file_B m)) as L1.
  pose proof (rjust_length 6 (dec (get_line (get_end m)))) as L2.
  pose proof (rjust_length 10 (dec (count m))) as L3.
  pose proof (rjust_length 15 (Spec.thousands (dec (get_average_duration m)))) as L4.
  unfold bar_columns, Spec.row_B.
  change (lit "|") with ["|"%char]. cbn [app].
  repeat constructor.
  - apply nth_error_at. lia.
  - past_field 30%nat 6%nat. apply nth_error_at. lia.
  - past_field 30%nat 17%nat. past_field 6%nat 10%nat. apply nth_error_at. lia.
  - past_field 30%nat 33%nat. past_field 6%nat 26%nat. past_field 10%nat 15%nat.
    apply nth_error_at. lia.
Qed.

End Fitting.

(** X2.  The columns line up: the header row is 80 characters long with
    its bars in the columns 30, 37, 48 and 64, in any state of the stream,
    and for every measurement whose values are no wider than their columns
    row A has its four bars in the same columns and is 65 characters long,
    and row B has its four bars in the same columns and is 80 characters
    long. *)
Theorem columns_line_up (m : MultiMeasurement) (os : ostream)
  (Hm : is_measurement m) (Hfit : fits_columns m) :
  text (print_header os)
  = text os ++ Spec.header_row ++ [nl] ++ repeat "="%char 80 ++ [nl] /\
  (exists os' : ostream,
      print_measurement m os = Some os' /\
      text os' = text os ++ Spec.row_A m ++ [nl] ++ Spec.row_B m ++ [nl]) /\
  List.length Spec.header_row = 80%nat /\
  List.length (Spec.row_A m) = 65%nat /\
  List.length (Spec.row_B m) = 80%nat /\
  Forall (fun k =>
            nth_error Spec.header_row k = Some "|"%char /\
            nth_error (Spec.row_A m) k = Some "|"%char /\
            nth_error (Spec.row_B m) k = Some "|"%char)
    [30; 37; 48; 64]%nat.
Proof.
  split.
  { rewrite print_header_lines. cbn [text]. f_equal. }
  split.
  { eexists. split; [now apply print_measurement_rows | reflexivity]. }
  split; [reflexivity| ].
  split; [now apply row_A_fits| ].
  split; [now apply row_B_fits| ].
  pose proof (row_A_bars m Hfit) as HA. pose proof (row_B_bars m Hfit) as HB.
  unfold bar_columns in HA, HB.
  rewrite Forall_forall in HA, HB. apply Forall_forall. intros k Hk.
  split; [ | split; [now apply HA | now apply HB]].
  cbn [In] in Hk.
  destruct Hk as [<- | [<- | [<- | [<- | []]]]]; reflexivity.
Qed.

Lemma columns_line_up_witness :
  is_measurement Samples.two_files /\
  fits_columns Samples.two_files /\
  List.length (Spec.row_A Samples.two_files) = 65%nat /\
  List.length (Spec.row_B Samples.two_files) = 80%nat /\
  Forall (fun k =>
            nth_error Spec.header_row k = Some "|"%char /\
            nth_error (Spec.row_A Samples.two_files) k = Some "|"%char /\
            nth_error (Spec.row_B Samples.two_files) k = Some "|"%char)
    [30; 37; 48; 64]%nat.
Proof.
  assert (Hm : is_measurement Samples.two_files) by well_typed_sample.
  assert (Hfit : fits_columns Samples.two_files)
    by (repeat split; apply Nat.leb_le; vm_compute; reflexivity).
  split; [exact Hm| ]. split; [exact Hfit| ].
  exact (proj2 (proj2 (proj2 (columns_line_up Samples.two_files fresh Hm Hfit)))).
Defined.

(** ** The size of a report *)

Lemma blocks_count (ms : list MultiMeasurement) :
  List.length (flat_map Spec.block_rows (Spec.blocks ms)) = (3 * List.length ms)%nat.
Proof.
  induction ms as [ |m l IH]; [reflexivity| ].
  rewrite blocks_cons. cbn [flat_map]. rewrite length_app, IH.
  cbn [Spec.block_rows List.length]. lia.
Qed.

Lemma blocks_within_width (ms : list MultiMeasurement) :
  Forall fits_columns ms ->
  Forall (fun row => (List.length row <= 80)%nat)
    (flat_map Spec.block_rows (Spec.blocks ms)).
Proof.
  induction ms as [ |m l IH]; intro Hfit; [constructor| ].
  rewrite blocks_cons. cbn [flat_map].
  apply Forall_app. split.
  - pose proof (Forall_inv Hfit) as Hm.
    unfold Spec.block_rows. cbn [fst snd].
    apply Forall_cons; [ | apply Forall_cons; [ | apply Forall_cons; [ | apply Forall_nil]]].
    + rewrite (row_A_fits m Hm). lia.
    + rewrite (row_B_fits m Hm). lia.
    + unfold Spec.hline. rewrite repeat_length. lia.
  - apply IH. exact (Forall_inv_tail Hfit).
Qed.

(** X9.  Every report of N aggregates has 5 + 3 N rows, and when the
    values of every aggregate are no wider than their columns no row is
    longer than the 80 characters of the line width. *)
Theorem report_within_line_width (p : Printer) (os : ostream)
  (Hp : is_printer p) :
  exists (os' : ostream) (rows : list str),
    print p os = Some os' /\
    text os' = text os ++ flat_map (fun row => row ++ [nl]) rows /\
    rows = Spec.report (measurements_ p) /\
    List.length rows = (5 + 3 * List.length (measurements_ p))%nat /\
    (Forall fits_columns (measurements_ p) ->
     Forall (fun row => (Z.of_nat (List.length row) <= line_width)) rows).
Proof.
  destruct (print_report p os Hp) as [os' [Hrun Htext]].
  exists os', (Spec.report (measurements_ p)).
  split; [exact Hrun| ]. split; [exact Htext| ]. split; [reflexivity| ].
  unfold Spec.report. split.
  - rewrite !length_app, blocks_count. reflexivity.
  - intro Hfit.
    apply Forall_app. split; [ | apply Forall_app; split].
    + repeat constructor; vm_compute; discriminate.
    + repeat constructor; vm_compute; discriminate.
    + pose proof (blocks_within_width (measurements_ p) Hfit) as H.
      rewrite Forall_forall in H. apply Forall_forall. intros row Hrow.
      specialize (H row Hrow). unfold line_width. lia.
Qed.

Lemma report_within_line_width_witness :
  is_printer (added [Samples.scenario; Samples.wide]) /\
  ~ fits_columns Samples.wide /\
  (exists (os' : ostream) (rows : list str),
      print (added [Samples.scenario; Samples.wide]) fresh = Some os' /\
      text os' = text fresh ++ flat_map (fun row => row ++ [nl]) rows /\
      List.length rows = 11%nat) /\
  is_printer (added [Samples.scenario; Samples.two_files]) /\
  Forall fits_columns (measurements_ (added [Samples.scenario; Samples.two_files])) /\
  exists (os' : ostream) (rows : list str),
    print (added [Samples.scenario; Samples.two_files]) fresh = Some os' /\
    text os' = text fresh ++ flat_map (fun row => row ++ [nl]) rows /\
    List.length rows = 11%nat /\
    Forall (fun row => (Z.of_nat (List.length row) <= line_width)) rows.
Proof.
  assert (Hw : is_printer (added [Samples.scenario; Samples.wide]))
    by well_typed_sample.
  assert (Hp : is_printer (added [Samples.scenario; Samples.two_files]))
    by well_typed_sample.
  assert (Hfit : Forall fits_columns
                   (measurements_ (added [Samples.scenario; Samples.two_files])))
    by (repeat constructor; apply Nat.leb_le; vm_compute; reflexivity).
  split; [exact Hw| ].
  split.
  { intros [H _]. apply Nat.leb_le in H. vm_compute in H. discriminate H. }
  split.
  { destruct (report_within_line_width (added [Samples.scenario; Samples.wide]) fresh Hw)
      as [os' [rows [Hrun [Htext [_ [Hlen _]]]]]].
    exists os', rows. split; [exact Hrun| ]. split; [exact Htext | exact Hlen]. }
  split; [exact Hp| ]. split; [exact Hfit| ].
  destruct (report_within_line_width
              (added [Samples.scenario; Samples.two_files]) fresh Hp)
    as [os' [rows [Hrun [Htext [_ [Hlen Hwidth]]]]]].
  exists os', rows.
  split; [exact Hrun| ]. split; [exact Htext| ]. split; [exact Hlen| ].
  exact (Hwidth Hfit).
Defined.

(** ** Numbers without a separator *)

Lemma scan_commas_short (t : str) :
  (List.length t <= 3)%nat -> Spec.scan_commas t = t.
Proof.
  destruct t as [ |a [ |b [ |c [ |d t]]]]; intro H; try reflexivity.
  cbn [List.length] in H. lia.
Qed.

(** X10.  A non-negative number is returned by [insert_separators] as its
    plain decimal text, without any comma, exactly when it is below
    1000. *)
Theorem insert_separators_plain_below_1000 (n : Z)
  (Hnonneg : 0 <= n) (Hlong : n <= LONG_MAX) :
  exists out : str,
    insert_separators n = Some out /\
    (out = dec n <-> n < 1000) /\
    (n < 1000 -> forall c : ascii, In c out -> c <> ","%char).
Proof.
  assert (Hl : is_long n) by (unfold is_long, LONG_MIN, LONG_MAX in *; lia).
  exists (Spec.thousands (dec n)).
  split; [now apply insert_separators_thousands| ].
  pose proof (dec_length_le n 3 Hnonneg) as Hiff.
  change (10 ^ Z.of_nat 3) with 1000 in Hiff.
  rewrite <- scan_commas_thousands.
  assert (Hsmall : n < 1000 -> Spec.scan_commas (dec n) = dec n)
    by (intro H; apply scan_commas_short, Hiff; lia).
  split; [split| ].
  - intro Heq. apply Hiff; [lia| ].
    apply (f_equal (@List.length ascii)) in Heq.
    rewrite scan_commas_length in Heq.
    pose proof (Nat.div_mod_eq (List.length (dec n) - 1) 3) as Hd.
    pose proof (Nat.mod_upper_bound (List.length (dec n) - 1) 3) as Hu.
    lia.
  - exact Hsmall.
  - intros H c Hin. rewrite (Hsmall H) in Hin.
    apply digit_not_comma.
    apply (proj1 (forallb_forall Spec.is_digit (dec n)) (dec_digits n Hnonneg) c Hin).
Qed.

Lemma insert_separators_plain_below_1000_witness :
  0 <= 999 /\ 999 <= LONG_MAX /\
  exists out : str,
    insert_separators 999 = Some out /\
    (out = dec 999 <-> 999 < 1000) /\
    (999 < 1000 -> forall c : ascii, In c out -> c <> ","%char).
Proof.
  assert (Hnonneg : 0 <= 999) by lia.
  assert (Hlong : 999 <= LONG_MAX) by (vm_compute; discriminate).
  split; [exact Hnonneg| ]. split; [exact Hlong| ].
  exact (insert_separators_plain_below_1000 999 Hnonneg Hlong).
Defined.
